(** * WellWish engine: mesh routing and burst dispatch

    A shallow embedding of the Go packages [mesh], [burst] and [drawing]
    of the engine, with the properties of their routing, framing,
    container and key generation code.

    Go strings are byte strings: [string] of the Standard Library, one
    [ascii] per byte.  Go maps are [gmap string _]; reading a missing key
    gives the zero value, which [go_index] spells out.  Handlers do not
    return values, they act on the response writer and on collaborators:
    each handler returns the list of these actions in program order. *)

From Stdlib Require Import ZArith String Ascii List Lia.
From stdpp Require Import base gmap strings list.

Local Open Scope string_scope.
Local Open Scope list_scope.

(** ** Go runtime helpers *)

Module strings.

(** [strings.HasPrefix(s, prefix)] *)
Definition HasPrefix (s p : string) : bool := String.prefix p s.

(** [s[n:]], for [n] at most [len(s)] *)
Fixpoint drop (n : nat) (s : string) : string :=
  match n, s with
  | O, _ => s
  | S _, EmptyString => EmptyString
  | S n', String _ s' => drop n' s'
  end.

(** [s[:n]], for [n] at most [len(s)] *)
Fixpoint take (n : nat) (s : string) : string :=
  match n, s with
  | O, _ => EmptyString
  | S _, EmptyString => EmptyString
  | S n', String c s' => String c (take n' s')
  end.

(** [strings.Replace(s, old, new, 1)]: the leftmost occurrence of [old]
    is replaced; an empty [old] matches at the beginning of [s]. *)
Fixpoint Replace1 (s old new : string) : string :=
  if String.prefix old s then new +:+ drop (String.length old) s
  else match s with
       | EmptyString => EmptyString
       | String c s' => String c (Replace1 s' old new)
       end.

(** [old] occurs in [s] *)
Definition Contains (s old : string) : Prop :=
  ∃ a b, s = a +:+ old +:+ b.

(** [c] is not one of the bytes of [s] *)
Definition free_of (c : ascii) (s : string) : Prop :=
  c ∉ list_ascii_of_string s.

(** [strings.Contains(s, old)] *)
Fixpoint containsb (s old : string) : bool :=
  if String.prefix old s then true
  else match s with
       | EmptyString => false
       | String _ s' => containsb s' old
       end.

End strings.

(** [m[k]] on a [map[string]string]: the empty string when [k] is absent *)
Definition go_index (m : gmap string string) (k : string) : string :=
  default "" (m !! k).

(** ** Package englang, the sentence printer and parser *)

Module englang.

(** The templated print/parse pair is a collaborator of the code below.
    [Scanf1] and [Scanf] give the values read for the [%s] holes of the
    format, or [None] where the Go functions return an error. *)
Class Englang := {
  Printf : string → list string → string;
  Scanf1 : string → string → option (list string);
  Scanf : string → string → option (list string);
  Synonym : string → string → bool
}.

(** The value stored through the [i]-th pointer argument; the Go
    variables start out empty. *)
Definition arg (i : nat) (vals : list string) : string := nth i vals "".

End englang.

Import englang.

(** Modelled from the spec: package englang is not among the sources; the
    spec describes it as a templated print/parse pair over sentences with
    [%s] holes, where a string matches a pattern when it spells the
    pattern's literal text around the values.  This instance is the one
    the examples below are evaluated with: [Printf] fills the holes from
    left to right, [Scanf1] reads the literal pieces from left to right
    and ends each value at the first occurrence of the literal that
    follows it, [Scanf] is the same parser, and [Synonym] is equality.
    The theorems on the packages do not depend on it: they hold for every
    instance of [Englang]. *)
Module englang_model.

(** the literal pieces of a format, around its [%s] holes *)
Fixpoint pieces (fmt : string) : list string :=
  match fmt with
  | EmptyString => [EmptyString]
  | String c rest =>
      match c, rest with
      | "%"%char, String "s"%char rest' => EmptyString :: pieces rest'
      | _, _ =>
          match pieces rest with
          | l :: ls => String c l :: ls
          | [] => [String c EmptyString]
          end
      end
  end.

(** text before and after the first occurrence of [lit] in [s] *)
Fixpoint find (lit s : string) : option (string * string) :=
  if String.prefix lit s then Some (EmptyString, strings.drop (String.length lit) s)
  else match s with
       | EmptyString => None
       | String c s' =>
           match find lit s' with
           | Some (b, a) => Some (String c b, a)
           | None => None
           end
       end.

Fixpoint fill (lits args : list string) : string :=
  match lits with
  | [] => EmptyString
  | [l] => l
  | l :: ls =>
      match args with
      | a :: args' => l +:+ a +:+ fill ls args'
      | [] => l +:+ "%s" +:+ fill ls []
      end
  end.

Fixpoint holes (lits : list string) (s : string) : option (list string) :=
  match lits with
  | [] => if String.eqb s EmptyString then Some [] else None
  | l :: ls =>
      match find l s with
      | Some (v, rest) =>
          match holes ls rest with
          | Some vs => Some (v :: vs)
          | None => None
          end
      | None => None
      end
  end.

Definition Printf (fmt : string) (args : list string) : string :=
  fill (pieces fmt) args.

Definition Scanf1 (s fmt : string) : option (list string) :=
  match pieces fmt with
  | [] => None
  | l :: ls =>
      if String.prefix l s then holes ls (strings.drop (String.length l) s)
      else None
  end.

Definition model : Englang := {|
  englang.Printf := Printf;
  englang.Scanf1 := Scanf1;
  englang.Scanf := Scanf1;
  englang.Synonym := String.eqb
|}.

End englang_model.

(** ** The HTTP boundary *)

Module http.

Definition StatusNoContent : Z := 204.
Definition StatusUnauthorized : Z := 401.
Definition StatusPaymentRequired : Z := 402.
Definition StatusNotFound : Z := 404.
Definition StatusGone : Z := 410.

(** The parts of [*http.Request] the handlers read.  [Header] and [Query]
    are looked up with [Get], which gives the empty string for a name
    that is not there; [Body] is what [io.ReadAll] returns for it. *)
Record Request := {
  Method : string;
  URL : string;
  Header : gmap string string;
  Query : gmap string string;
  Body : string
}.

Definition Header_Get (r : Request) (name : string) : string :=
  go_index (Header r) name.

Definition Query_Get (r : Request) (name : string) : string :=
  go_index (Query r) name.

(** What a handler does to the response writer and to its collaborators
    (package management, the ring propagator, the task channel). *)
Inductive action :=
| WriteHeader (status : Z)
| Write (b : string)
| QuantumGradeAuthorization
| HttpProxyRequest (url method body : string)
| ForwardRoundRobinRingRequest (r : Request)
| NewRoundRobinCall (url method body : string)
| SendCode (delivered : bool)
| SendCall (input : string) (delivered : bool)
| ReceiveCall (output : option string)
| Sleep (d : Z).

(** the body the caller receives: the concatenation of the writes *)
Fixpoint body_of (t : list action) : string :=
  match t with
  | [] => EmptyString
  | Write b :: t' => b +:+ body_of t'
  | _ :: t' => body_of t'
  end.

(** the status line: the first [WriteHeader], if any *)
Fixpoint status_of (t : list action) : option Z :=
  match t with
  | [] => None
  | WriteHeader c :: _ => Some c
  | _ :: t' => status_of t'
  end.

Definition is_forward (a : action) : bool :=
  match a with
  | HttpProxyRequest _ _ _ | ForwardRoundRobinRingRequest _
  | NewRoundRobinCall _ _ _ => true
  | _ => false
  end.

(** the calls that reach another node *)
Definition forwards (t : list action) : list action := List.filter is_forward t.

Definition is_channel (a : action) : bool :=
  match a with
  | SendCode _ | SendCall _ _ | ReceiveCall _ => true
  | _ => false
  end.

(** the operations on the task channel and on call channels *)
Definition channel_ops (t : list action) : list action := List.filter is_channel t.

End http.

Import http.

(** ** Package mesh (node registry, key index, proxy) *)

Module mesh.

Definition eviction_notice : string := "This node got an eviction notice.".

Section Mesh.

Context {E : Englang}.

(** [metadata.SiteUrl] *)
Variable SiteUrl : string.

(** the sentence pattern of one index entry, a constant of package mesh
    declared outside the sources at hand *)
Variable MeshPattern : string.

(** [management.EnsureAdministrator]: the administrator key, or [None]
    for an error *)
Variable EnsureAdministrator : Request → option string.

(** the bytes [management.HttpProxyRequest] returns for a forwarded call *)
Variable proxy_reply : string → string → string → string.

(** [fmt.Sprintf("%s/node?apikey=%s", node, adminKey)] *)
Definition node_url (node adminKey : string) : string :=
  node +:+ "/node?apikey=" +:+ adminKey.

(** The loop of the PUT branch over the registry.  Go ranges over a map in
    an unspecified order; the calls are listed in the order of
    [map_to_list]. *)
Definition propagate_join (Nodes : gmap string string) (adminKey address : string)
  : list action :=
  flat_map (λ '(node, status),
      if negb (String.eqb status eviction_notice)
      then [NewRoundRobinCall (node_url node adminKey) "PUT" address]
      else [])
    (map_to_list Nodes).

(** The handler of [/node]: the registry afterwards and what was done. *)
Definition node_handler (Nodes : gmap string string) (r : Request)
  : gmap string string * list action :=
  match EnsureAdministrator r with
  | None => (Nodes, [QuantumGradeAuthorization; WriteHeader StatusUnauthorized])
  | Some adminKey =>
      let address := Body r in
      if String.eqb address "" then
        (Nodes, [QuantumGradeAuthorization; WriteHeader StatusNoContent])
      else
        let entry := [QuantumGradeAuthorization; ForwardRoundRobinRingRequest r] in
        if String.eqb (Method r) "PUT" then
          if negb (String.eqb (go_index Nodes address) "") then (Nodes, entry)
          else
            let Nodes' := <[address := address]> Nodes in
            (Nodes', entry ++ propagate_join Nodes' adminKey address)
        else if String.eqb (Method r) "DELETE" then
          if String.eqb (go_index Nodes address) "" then
            (Nodes, entry ++ [WriteHeader StatusNotFound])
          else if String.eqb (go_index Nodes address) eviction_notice then
            (Nodes, entry)
          else
            (<[address := eviction_notice]> Nodes,
             entry ++ [ForwardRoundRobinRingRequest r])
        else (Nodes, entry)
  end.

Definition findServerOfApiKey (Index : gmap string string) (apiKey : string) : string :=
  go_index Index apiKey.

(** the scheme of the site is put in front of a server that lacks it *)
Definition with_scheme (server : string) : string :=
  if strings.HasPrefix SiteUrl "http://" && negb (strings.HasPrefix server "http://")
  then "http://" +:+ server
  else if strings.HasPrefix SiteUrl "https://" && negb (strings.HasPrefix server "https://")
  then "https://" +:+ server
  else server.

(** [Proxy]: what was done, and the error returned ([None] for nil) *)
Definition Proxy (Nodes Index : gmap string string) (r : Request)
  : list action * option string :=
  let apiKey := Header_Get r "apikey" in
  if String.eqb apiKey "" then ([WriteHeader StatusNotFound], Some "not found")
  else
    let server := findServerOfApiKey Index apiKey in
    if String.eqb server "" then ([WriteHeader StatusNotFound], Some "not found")
    else if Synonym (go_index Nodes server) eviction_notice then
      ([WriteHeader StatusGone], Some "not found")
    else
      let server := with_scheme server in
      let original := URL r in
      let modified := strings.Replace1 original SiteUrl server in
      if String.eqb modified original then
        ([WriteHeader StatusNotFound], Some "not found")
      else
        let b := proxy_reply modified (Method r) (Body r) in
        ([HttpProxyRequest modified (Method r) (Body r); Write b], None).

(** [FilterIndexEntries]: the sentences of the index, in the order of
    [map_to_list] *)
Definition FilterIndexEntries (Index : gmap string string) : string :=
  foldr (λ '(apiKey, server) acc, Printf MeshPattern [apiKey; server] +:+ acc)
    EmptyString (map_to_list Index).

(** one turn of the loop of [UpdateIndex] on a line of the scanner *)
Definition index_line (index : gmap string string) (line : string)
  : gmap string string :=
  match Scanf line MeshPattern with
  | None => index
  | Some vals => <[englang.arg 0 vals := englang.arg 1 vals]> index
  end.

(** [UpdateIndex]: the value of [Index] afterwards, from its value before
    and the lines the [bufio.Scanner] yields for the stream.  The loop
    fills a fresh map, which is then assigned to [Index]. *)
Definition UpdateIndex (Index : gmap string string) (lines : list string)
  : gmap string string :=
  let index := foldl index_line ∅ lines in
  index.

(** the entry a line spells, if it matches the pattern *)
Definition entry_of (line : string) : option (string * string) :=
  match Scanf line MeshPattern with
  | None => None
  | Some vals => Some (englang.arg 0 vals, englang.arg 1 vals)
  end.

(** [lines] has a line that spells the entry of [apiKey] with [server],
    and no later line spells an entry of [apiKey] *)
Definition last_entry (lines : list string) (apiKey server : string) : Prop :=
  ∃ before line after,
    lines = before ++ line :: after
    ∧ entry_of line = Some (apiKey, server)
    ∧ ∀ line' server', line' ∈ after → entry_of line' ≠ Some (apiKey, server').

(** the request names a key with an owner, and the owner has the
    eviction notice in the registry *)
Definition owner_evicted (Nodes Index : gmap string string) (r : Request) : bool :=
  let apiKey := Header_Get r "apikey" in
  let server := findServerOfApiKey Index apiKey in
  negb (String.eqb apiKey "") && negb (String.eqb server "")
  && Synonym (go_index Nodes server) eviction_notice.

(** the request has no [apikey] header, or the index has no entry for it *)
Definition key_unknown (Index : gmap string string) (r : Request) : Prop :=
  Header r !! "apikey" = None ∨ Index !! Header_Get r "apikey" = None.

(** the key of the request is owned by a node that the registry marks as
    evicted *)
Definition key_gone (Nodes Index : gmap string string) (r : Request) : Prop :=
  ∃ apiKey server,
    Header r !! "apikey" = Some apiKey ∧ apiKey ≠ ""
    ∧ Index !! apiKey = Some server ∧ server ≠ ""
    ∧ Nodes !! server = Some eviction_notice.

(** the registry after a sequence of requests to [/node] *)
Definition serve_nodes (Nodes : gmap string string) (rs : list Request)
  : gmap string string :=
  foldl (λ N r, (node_handler N r).1) Nodes rs.

End Mesh.

End mesh.

(** ** Package burst (dispatcher, UDP framing, container table) *)

Module burst.

Definition frame_pattern : string := "Message has started.%sMessage has finished.".
Definition message_start : string := "Message has started.".
Definition message_end : string := "Message has finished.".
Definition running_pattern : string :=
  "Burst container has key %s and it is running %s.".
Definition run_this_pattern : string :=
  "Burst container has key %s and it is running %s.Run this.%s".
Definition finished_pattern : string :=
  "Burst container has key %s and it is finished with the following result %s".
Definition terminator : string := "DFFSSFFGGG".
Definition busy_message : string := "The system is busy. Please reload.".
Definition payment_message : string := "Payment required with a PUT to /run.coin".

(** [time.Duration] is an [int64] count of nanoseconds *)
Definition wrap64 (z : Z) : Z := (z + 2 ^ 63) mod 2 ^ 64 - 2 ^ 63.

Definition Second : Z := 1000000000.

(** how long [<-time.After(d)] blocks: not at all for [d <= 0] *)
Definition After (d : Z) : Z := Z.max 0 d.

(** What the rest of the process does with the channels of one call of
    [/run]: after how long a worker receives from the shared channel
    [code], after how long the holder of the call channel receives the
    input, and after how long it sends which output; [None] for never. *)
Record peer := {
  takes_code : option Z;
  takes_input : option Z;
  posts_output : option (Z * string)
}.

(** A [select] between [<-time.After(d)] and one channel operation that
    the other side is ready for after [ready]: whether the channel
    operation was chosen, and how long the [select] blocked. *)
Definition select_wait (d : Z) (ready : option Z) : bool * Z :=
  match ready with
  | Some t => if (Z.max 0 t <? After d)%Z then (true, Z.max 0 t) else (false, After d)
  | None => (false, After d)
  end.

(** [io.Copy(writer, bytes.NewBuffer([]byte(output)))]: an empty buffer
    writes nothing *)
Definition copy_out (output : string) : list action :=
  if String.eqb output "" then [] else [Write output].

(** what the environment does to the container table while this
    goroutine sleeps for the [i]-th time *)
Definition interference := nat → gmap string string → gmap string string.

Section Burst.

Context {E : Englang}.

(** the runtime budget, a constant of package burst declared outside the
    sources at hand *)
Variable MaxBurstRuntime : Z.

(** The handler of [/run] that [Setup] installs: what was done, and for
    how long the handler was blocked in its [select]s.  The call channel
    is made by the handler and reaches another goroutine only through
    [code], so nobody is on its other side unless the first [select]
    delivered it. *)
Definition run_handler (BurstSession : gmap string string) (r : Request) (p : peer)
  : list action * Z :=
  let apiKey := Query_Get r "apikey" in
  match BurstSession !! apiKey with
  | None =>
      ([QuantumGradeAuthorization;
        WriteHeader StatusPaymentRequired; Write payment_message], 0%Z)
  | Some _ =>
      let input := Body r in
      let '(sent, w1) := select_wait MaxBurstRuntime (takes_code p) in
      let '(given, w2) :=
        select_wait MaxBurstRuntime (if sent then takes_input p else None) in
      let posted := if sent then posts_output p else None in
      let '(got, w3) :=
        select_wait (wrap64 (MaxBurstRuntime + MaxBurstRuntime)) (fst <$> posted) in
      let output := if got then snd <$> posted else None in
      ([SendCode sent; SendCall input given; ReceiveCall output]
         ++ from_option copy_out [] output,
       (w1 + w2 + w3)%Z)
  end.

Definition IsMessageComplete (s : string) : bool :=
  match Scanf1 s frame_pattern with
  | Some _ => true
  | None => false
  end.

(** what [acceptMessage] does with its handler and its connection *)
Inductive udp_action :=
| Handle (message : string)
| WriteToUDP (reply : string)
| Close.

(** One turn of the loop of [acceptMessage] on a datagram that was read:
    the actions, the buffer afterwards, and whether the loop goes on.
    The read buffer has 1024 bytes, a longer datagram is cut.  [write_ok]
    is the outcome of [WriteToUDP], should the turn send a reply. *)
Definition accept_datagram (handler : string → string) (message : string)
    (datagram : string) (write_ok : bool) : list udp_action * string * bool :=
  let data := strings.take 1024 datagram in
  let message := message +:+ data in
  if IsMessageComplete message then
    let reply := handler message in
    if negb (String.eqb reply "") then
      ([Handle message; WriteToUDP reply], EmptyString, write_ok)
    else ([Handle message], EmptyString, true)
  else ([], message, true).

(** The loop of [acceptMessage] over the datagrams read until
    [ReadFromUDP] fails, starting with [message] in the buffer. *)
Fixpoint acceptMessage (handler : string → string) (message : string)
    (reads : list (string * bool)) : list udp_action * string :=
  match reads with
  | [] => ([Close], message)
  | (datagram, write_ok) :: reads' =>
      let '(acts, message', go_on) :=
        accept_datagram handler message datagram write_ok in
      if go_on then
        let '(rest, final) := acceptMessage handler message' reads' in
        (acts ++ rest, final)
      else (acts, message')
  end.

(** the bytes the loop has put together from the datagrams *)
Definition accumulated (reads : list (string * bool)) : string :=
  foldr (λ '(datagram, _) acc, strings.take 1024 datagram +:+ acc) EmptyString reads.

(** the messages given to the handler *)
Definition handled (t : list udp_action) : list string :=
  omap (λ a, match a with Handle m => Some m | _ => None end) t.

(** [StartBurst] over the entries in the order the [range] visits them *)
Fixpoint StartBurst (entries : list (string * string)) (code : string)
    (Container : gmap string string) : string * gmap string string :=
  match entries with
  | [] => (EmptyString, Container)
  | (containerKey, containerContent) :: entries' =>
      match Scanf1 containerContent running_pattern with
      | Some vals =>
          let status := englang.arg 1 vals in
          if String.eqb status "idle" then
            let update := Printf run_this_pattern [containerKey; "code"; code] in
            (containerKey, <[containerKey := update]> Container)
          else StartBurst entries' code Container
      | None => StartBurst entries' code Container
      end
  end.

(** Go visits the entries of a map in an unspecified order *)
Definition range_of (Container : gmap string string) (entries : list (string * string))
  : Prop :=
  entries ≡ₚ map_to_list Container.

Definition GetBurst (key : string) (Container : gmap string string)
  : string * gmap string string :=
  match Container !! key with
  | Some content =>
      match Scanf1 (content +:+ terminator) (finished_pattern +:+ terminator) with
      | Some vals =>
          let containerKey := englang.arg 0 vals in
          let result := englang.arg 1 vals in
          let update := Printf running_pattern [containerKey; "idle"] in
          (result, <[containerKey := update]> Container)
      | None => (EmptyString, Container)
      end
  | None => (EmptyString, Container)
  end.

(** the key and the result a record spells, if it is a finished one *)
Definition finished (content : string) : option (string * string) :=
  match Scanf1 (content +:+ terminator) (finished_pattern +:+ terminator) with
  | Some vals => Some (englang.arg 0 vals, englang.arg 1 vals)
  | None => None
  end.

(** the record reads as an idle container *)
Definition idle (content : string) : bool :=
  match Scanf1 content running_pattern with
  | Some vals => String.eqb (englang.arg 1 vals) "idle"
  | None => false
  end.

(** the idle sentence of a container *)
Definition idle_record (key : string) : string :=
  Printf running_pattern [key; "idle"].

(** the running sentence of a container *)
Definition running_record (key code : string) : string :=
  Printf run_this_pattern [key; "code"; code].

(** the polling loop of [RunBurst], [n] turns left, [i] sleeps done *)
Fixpoint poll (n i : nat) (yield : interference) (containerKey : string)
    (Container : gmap string string) : (string * string) * gmap string string :=
  match n with
  | O => ((containerKey, EmptyString), Container)
  | S n' =>
      let '(result, Container1) := GetBurst containerKey Container in
      if negb (String.eqb result "") then ((containerKey, result), Container1)
      else poll n' (S i) yield containerKey (yield i Container1)
  end.

Definition RunBurst (entries : list (string * string)) (yield : interference)
    (code : string) (Container : gmap string string)
  : (string * string) * gmap string string :=
  let '(containerKey, Container1) := StartBurst entries code Container in
  if String.eqb containerKey "" then ((busy_message, EmptyString), Container1)
  else poll 15 0 yield containerKey Container1.

(** The handler of [/run] that [SetupBurstLambdaEndpoint] installs; the
    sleep of three seconds is the sleep number 15 of [yield]. *)
Definition lambda_handler (entries : list (string * string)) (yield : interference)
    (Container : gmap string string) (r : Request)
  : list action * gmap string string :=
  let input := Body r in
  let '((deferredKey, output), Container1) := RunBurst entries yield input Container in
  if negb (String.eqb deferredKey "") && String.eqb output "" then
    let '(output', Container2) := GetBurst deferredKey (yield 15 Container1) in
    (Sleep (3 * Second) :: copy_out output', Container2)
  else (copy_out output, Container1).

End Burst.

End burst.

(** ** Package drawing (key generation) *)

Module drawing.

Definition letters : list ascii := list_ascii_of_string "ABCDEFGHIJKLMNOPQRST".

Definition uint32 (z : Z) : Z := (z mod 2 ^ 32)%Z.

(** [Random], from the outcome of [rand.Read]: the first byte read, or
    [None] for an error or a short read *)
Definition Random (read : option Z) : Z :=
  match read with
  | None => 0%Z
  | Some b0 =>
      let b := (b0 mod 256)%Z in
      uint32 (Z.lor (Z.lor (Z.lor (Z.shiftl b 24) (Z.shiftl b 16)) (Z.shiftl b 8))
                    (Z.shiftl b 0))
  end.

(** the random sources: what the [k]-th call of [rand.Read] and of
    [math.Uint32] gives *)
Record entropy := {
  crypto : nat → option Z;
  prng : nat → Z
}.

(** [letters[(Random()^math.Uint32())%uint32(len(letters))]] *)
Definition draw (e : entropy) (k : nat) : ascii :=
  let x := Z.lxor (Random (crypto e k)) (uint32 (prng e k)) in
  nth (Z.to_nat (x mod Z.of_nat (length letters))) letters zero.

(** the inner loop, [n] turns left, at index [i], at draw [k] *)
Fixpoint fill_key (e : entropy) (n i k : nat) (key : list ascii) : list ascii :=
  match n with
  | O => key
  | S n' => fill_key e n' (S i) (S k) (<[i := draw e k]> key)
  end.

(** the outer loop, [n] turns left, at draw [k] *)
Fixpoint rounds (e : entropy) (n k : nat) (key : list ascii) : list ascii :=
  match n with
  | O => key
  | S n' =>
      let key' := fill_key e 64 0 k key in
      if Ascii.eqb (nth 3 key' zero) "A" then key'
      else rounds e n' (k + 64) key'
  end.

Definition GenerateUniqueKey (e : entropy) : string :=
  let key := rounds e 1000 0 (replicate 64 zero) in
  string_of_list_ascii (<[4 := "B"%char]> key).

(** a character from 'A' to 'T' *)
Definition in_A_T (c : ascii) : Prop := (65 ≤ nat_of_ascii c ≤ 84)%nat.

End drawing.

(** ** Package burst, continued (sessions, workers, UDP client) *)

Module workers.

Import burst.

Definition Millisecond : Z := 1000000.

(** an environment in which the record of [key] becomes [record] during
    sleep number [j], and nothing else happens *)
Definition finishes_at (j : nat) (key record : string) : interference :=
  λ i Container, if Nat.eqb i j then <[key := record]> Container else Container.

Section Workers.

Context {E : Englang}.

(** the runtime budget of package burst *)
Variable MaxBurstRuntime : Z.

(** [billing.ValidatedCoinContent]: the coin of the request, or the empty
    string *)
Variable ValidatedCoinContent : Request → string.

(** [metadata.Http11Port] and the validity period, a constant of package
    burst declared outside the sources at hand *)
Variable Http11Port : string.
Variable ValidPeriod : Z.

(** [metadata.ActivationKey] *)
Variable ActivationKey : string.

(** [englang.DecimalString] *)
Variable DecimalString : Z → string.

(** what the handler of [/run.coin] does: it answers, and it calls
    package mesh *)
Inductive coin_action :=
| Answer (a : action)
| SetExpiry (key : string) (period : Z)
| RegisterIndex (key : string).

(** what of a trace reaches the response writer *)
Definition answers (t : list coin_action) : list action :=
  omap (λ a, match a with Answer a' => Some a' | _ => None end) t.

(** the [fmt.Sprintf] of the session sentence; [until] is
    [time.Now().Add(24*time.Hour).String()] *)
Definition session_sentence (coin burst until : string) : string :=
  "Burst chain api created from " +:+ coin +:+ " is " +:+ Http11Port
  +:+ "/run.coin?apikey=" +:+ burst +:+ ". Chain is valid until " +:+ until
  +:+ ".".

(** The handler of [/run.coin]: the session table afterwards and what was
    done. *)
Definition coin_handler (until : string) (BurstSession : gmap string string)
    (r : Request) : gmap string string * list coin_action :=
  if String.eqb (Method r) "PUT" then
    let coinToUse := ValidatedCoinContent r in
    if negb (String.eqb coinToUse "") then
      let burst := coinToUse in
      (<[burst := Printf (session_sentence coinToUse burst until) []]> BurstSession,
       [SetExpiry burst ValidPeriod; RegisterIndex burst;
        Answer QuantumGradeAuthorization; Answer (Write burst)])
    else
      (BurstSession,
       [Answer QuantumGradeAuthorization; Answer (WriteHeader StatusPaymentRequired)])
  else if String.eqb (Method r) "GET" then
    let apiKey := Query_Get r "apikey" in
    match BurstSession !! apiKey with
    | None =>
        (BurstSession,
         [Answer QuantumGradeAuthorization;
          Answer (WriteHeader StatusPaymentRequired)])
    | Some session =>
        (BurstSession, [Answer QuantumGradeAuthorization; Answer (Write session)])
    end
  else (BurstSession, []).

(** The tables of the dispatcher: the worker records, the call channel of
    each worker that was given a task (a channel is named by a number),
    and the flag of the first run. *)
Record dispatcher := {
  ContainerRunning : gmap string string;
  ContainerResults : gmap string nat;
  firstRun : bool
}.

Definition ready_pattern : string :=
  "Burst box %s registered at %s second is ready.".

(** the two [fmt.Sprintf] sentences of a worker record *)
Definition registered_sentence (idle : string) (seconds : Z) : string :=
  "Burst box " +:+ idle +:+ " registered at " +:+ DecimalString seconds
  +:+ " second.".

Definition ready_sentence (idle : string) (seconds : Z) : string :=
  "Burst box " +:+ idle +:+ " registered at " +:+ DecimalString seconds
  +:+ " second is ready.".

(** the goroutines the handler of [/idle] starts *)
Inductive goroutine :=
| Warm (idle : string)
| Forget (key : string).

(** what the handler of [/idle] does *)
Inductive idle_action :=
| Reply (a : action)
| TakeCode (call : option nat)
| TakeInput (call : nat) (input : string)
| PostResult (call : nat) (result : string) (delivered : bool)
| Go (g : goroutine).

Definition replies (t : list idle_action) : list action :=
  omap (λ a, match a with Reply a' => Some a' | _ => None end) t.

Definition is_idle_channel (a : idle_action) : bool :=
  match a with
  | TakeCode _ | TakeInput _ _ | PostResult _ _ _ => true
  | _ => false
  end.

(** What the rest of the process does with the channels of one call of
    [/idle]: after how long which call channel arrives on [code], the
    input that then arrives on it, and after how long the holder of the
    call channel receives the result; [None] for never. *)
Record caller := {
  call_arrives : option (Z * nat);
  input_arrives : option string;
  result_taken : option Z
}.

(** The handler of [/idle]: the tables afterwards, what was done, and for
    how long the handler was blocked in a [select]; [None] when it stays
    blocked in the receive of the input, which has no timer.  [e] is the
    entropy of [GenerateUniqueKey] and [seconds] the whole seconds since
    the start of the process. *)
Definition idle_handler (e : drawing.entropy) (seconds : Z) (d : dispatcher)
    (r : Request) (p : caller) : option (dispatcher * list idle_action * Z) :=
  let apiKey := Query_Get r "apikey" in
  if String.eqb (Method r) "GET" then
    if String.eqb apiKey ActivationKey then
      let idle := drawing.GenerateUniqueKey e in
      Some ({| ContainerRunning :=
                 <[apiKey := registered_sentence idle seconds]> (ContainerRunning d);
               ContainerResults := ContainerResults d;
               firstRun := firstRun d |},
            map Reply (copy_out idle) ++ [Go (Warm idle)], 0%Z)
    else
      match ContainerRunning d !! apiKey with
      | Some v =>
          match Scanf1 v ready_pattern with
          | Some _ =>
              let '(got, w) := select_wait MaxBurstRuntime (fst <$> call_arrives p) in
              match (if got then snd <$> call_arrives p else None) with
              | Some callChannel =>
                  match input_arrives p with
                  | Some request =>
                      Some ({| ContainerRunning := delete apiKey (ContainerRunning d);
                               ContainerResults :=
                                 <[apiKey := callChannel]> (ContainerResults d);
                               firstRun := false |},
                            [TakeCode (Some callChannel); TakeInput callChannel request;
                             Go (Forget apiKey)] ++ map Reply (copy_out request),
                            w)
                  | None => None
                  end
              | None =>
                  Some ({| ContainerRunning := ContainerRunning d;
                           ContainerResults := ContainerResults d;
                           firstRun := false |},
                        [TakeCode None], w)
              end
          | None => Some (d, [], 0%Z)
          end
      | None => Some (d, [], 0%Z)
      end
  else if String.eqb (Method r) "PUT" then
    let result := Body r in
    match ContainerResults d !! apiKey with
    | Some replyCh =>
        let '(sent, w) := select_wait (10 * Millisecond) (result_taken p) in
        Some ({| ContainerRunning := ContainerRunning d;
                 ContainerResults := delete apiKey (ContainerResults d);
                 firstRun := firstRun d |},
              [PostResult replyCh result sent], w)
    | None => Some (d, [], 0%Z)
    end
  else Some (d, [], 0%Z).

(** how long the goroutine [Warm] sleeps before it writes: not at all on
    the first run *)
Definition warm_delay (d : dispatcher) : Z :=
  if firstRun d then 0%Z else wrap64 (MaxBurstRuntime * 2).

(** the write of the goroutine [Warm], [seconds] after the start *)
Definition warm (idle : string) (seconds : Z) (d : dispatcher) : dispatcher :=
  {| ContainerRunning := <[idle := ready_sentence idle seconds]> (ContainerRunning d);
     ContainerResults := ContainerResults d;
     firstRun := firstRun d |}.

(** the delete of the goroutine [Forget], after [MaxBurstRuntime * 2] *)
Definition forget (key : string) (d : dispatcher) : dispatcher :=
  {| ContainerRunning := ContainerRunning d;
     ContainerResults := delete key (ContainerResults d);
     firstRun := firstRun d |}.

(** *** The client side of the UDP channel *)

(** how a call of [SendMessage] ends: with a reply and a nil error, with
    an error, or not yet, when [ReadFromUDP] has not returned *)
Inductive sent :=
| Replied (reply : string)
| Failed
| Waiting.

(** the loop of [SendMessage] over the outcomes of [ReadFromUDP], a
    datagram or an error *)
Fixpoint await_reply (reply : string) (reads : list (option string)) : sent :=
  match reads with
  | [] => Waiting
  | None :: _ => Failed
  | Some datagram :: reads' =>
      let data := strings.take 1024 datagram in
      let reply := reply +:+ data in
      if IsMessageComplete reply then Replied reply
      else await_reply reply reads'
  end.

(** the bytes read from the datagrams, each cut to the read buffer *)
Definition heard (reads : list (option string)) : string :=
  foldr (λ read acc, from_option (strings.take 1024) EmptyString read +:+ acc)
    EmptyString reads.

(** [SendMessage], from the outcomes of [ResolveUDPAddr], [DialUDP] and
    [Write] and of the reads *)
Definition SendMessage (resolved dialed written : bool)
    (reads : list (option string)) : sent :=
  if negb resolved then Failed
  else if negb dialed then Failed
  else if negb written then Failed
  else await_reply EmptyString reads.

End Workers.

End workers.

(** ** Package drawing, continued, and package activation *)

Module keys.

(** [RedactPublicKey]: [uq[0:6]], or [None] where the slice expression
    panics because [uq] has fewer than six bytes *)
Definition RedactPublicKey (uq : string) : option string :=
  if (6 <=? String.length uq)%nat then Some (strings.take 6 uq) else None.

End keys.

Module activation.

(** what the handler of [/activate] does: it answers, it tells package
    management the administrator key, and it meets the goroutine on the
    other side of the channel [Activated] *)
Inductive activation_action :=
| Respond (a : action)
| UpdateAdminKey (key : string)
| SendActivated (message : string)
| ReceiveActivated (key : string).

Definition responses (t : list activation_action) : list action :=
  omap (λ a, match a with Respond a' => Some a' | _ => None end) t.

Section Activation.

(** [metadata.ActivationKey] and [metadata.SiteUrl] *)
Variable ActivationKey : string.
Variable SiteUrl : string.

(** [Activate]: the key received on [Activated], the index afterwards and
    what was done.  [reply] is what the other side of [Activated] sends
    back; with [None] nobody is there and [Activate] does not return. *)
Definition Activate (adminKeyInit : string) (Index : gmap string string)
    (reply : option string)
  : option (string * gmap string string * list activation_action) :=
  match reply with
  | Some adminKey =>
      Some (adminKey, <[ActivationKey := adminKeyInit]> Index,
            [UpdateAdminKey adminKeyInit; SendActivated "Hello World!";
             ReceiveActivated adminKey])
  | None => None
  end.

(** [fmt.Sprintf("%s/management.html?apikey=%s", metadata.SiteUrl, adminKey)] *)
Definition management_url (adminKey : string) : string :=
  SiteUrl +:+ "/management.html?apikey=" +:+ adminKey.

(** The handler of [/activate]: the index afterwards and what was done,
    or [None] when [Activate] does not return. *)
Definition activate_handler (Index : gmap string string) (r : Request)
    (reply : option string)
  : option (gmap string string * list activation_action) :=
  if String.eqb ActivationKey "" then
    Some (Index, [Respond QuantumGradeAuthorization])
  else
    let adminKeyCandidate := Query_Get r "apikey" in
    let activationKey := Query_Get r "activationkey" in
    if String.eqb activationKey ActivationKey then
      match Activate adminKeyCandidate Index reply with
      | Some (adminKey, Index', acts) =>
          Some (Index',
                Respond QuantumGradeAuthorization :: acts
                ++ [Respond (Write (management_url adminKey))])
      | None => None
      end
    else
      Some (Index, [Respond QuantumGradeAuthorization;
                    Respond (WriteHeader StatusUnauthorized)]).

(** the trace tells package management a key *)
Definition updates_admin_key (t : list activation_action) : Prop :=
  ∃ key, UpdateAdminKey key ∈ t.

End Activation.

End activation.

(** ** A site for the examples *)

Module site.

Definition E : Englang := englang_model.model.

Definition SiteUrl : string := "http://127.0.0.1:7777".

Definition MeshPattern : string := "Api key %s is served by %s.".

Definition EnsureAdministrator (r : Request) : option string :=
  if String.eqb (go_index (Query r) "apikey") "ADMIN" then Some "ADMIN" else None.

Definition proxy_reply (url method body : string) : string := "reply".

Definition MaxBurstRuntime : Z := (3 * burst.Second)%Z.

Definition Nodes : gmap string string :=
  {[ "127.0.0.1:7781" := "127.0.0.1:7781";
     "127.0.0.1:7782" := mesh.eviction_notice ]}.

Definition Index : gmap string string :=
  {[ "KEYA" := "127.0.0.1:7781"; "KEYB" := "127.0.0.1:7782" ]}.

Definition BurstSession : gmap string string :=
  {[ "C1" := "Burst chain api created from C1." ]}.

Definition request (method url apikey query body : string) : Request :=
  {| Method := method; URL := url;
     Header := if String.eqb apikey "" then ∅ else {[ "apikey" := apikey ]};
     Query := if String.eqb query "" then ∅ else {[ "apikey" := query ]};
     Body := body |}.

(** nobody is on the other side of any channel *)
Definition nobody : burst.peer :=
  {| burst.takes_code := None; burst.takes_input := None;
     burst.posts_output := None |}.

Definition echo (message : string) : string := message.

Definition no_interference : burst.interference := λ _ Container, Container.

Definition no_key_request : Request := request "GET" "http://127.0.0.1:7777/x" "" "" "".
Definition gone_request : Request := request "GET" "http://127.0.0.1:7777/x" "KEYB" "" "".
Definition foreign_request : Request := request "GET" "/x" "KEYA" "" "".
Definition foreign_gone_request : Request := request "GET" "/x" "KEYB" "" "".

Definition delete_evicted : Request := request "DELETE" "/node" "" "ADMIN" "127.0.0.1:7782".

Definition paid_request : Request := request "PUT" "/run" "" "C1" "task".
Definition unpaid_request : Request := request "PUT" "/run" "" "C2" "task".

Definition two_datagrams : list (string * bool) :=
  [("Message has started.x", true); ("Message has finished.", true)].

Definition finished_table : gmap string string :=
  {[ "K" := "Burst container has key K and it is finished with the following result R" ]}.

Definition poor_entropy : drawing.entropy :=
  {| drawing.crypto := λ _, None; drawing.prng := λ _, 7%Z |}.


(** further requests and tables of the examples *)
Definition join_request : Request := request "PUT" "/node" "" "ADMIN" "127.0.0.1:7783".
Definition rejoin_request : Request := request "PUT" "/node" "" "ADMIN" "127.0.0.1:7782".
Definition delete_active : Request := request "DELETE" "/node" "" "ADMIN" "127.0.0.1:7781".
Definition routed_request : Request := request "GET" "http://127.0.0.1:7777/x" "KEYA" "" "".

Definition local_index : gmap string string := {[ "KEYL" := "127.0.0.1:7777" ]}.
Definition local_request : Request := request "GET" "http://127.0.0.1:7777/x" "KEYL" "" "".

Definition ValidatedCoinContent (r : Request) : string := Body r.
Definition Http11Port : string := ":7777".
Definition ValidPeriod : Z := (168 * 3600 * burst.Second)%Z.
Definition coin_put : Request := request "PUT" "/run.coin" "" "" "C9".
Definition coin_get : Request := request "GET" "/run.coin" "" "C9" "".
Definition coin_run : Request := request "PUT" "/run" "" "C9" "task".

Definition ActivationKey : string := "ACTIVATE".
Definition DecimalString (seconds : Z) : string := "0".
Definition worker_key : string :=
  "HHHHBHHHHHHHHHHHHHHHHHHHHHHHHHHHHHHHHHHHHHHHHHHHHHHHHHHHHHHHHHHH".
Definition fresh_dispatcher : workers.dispatcher :=
  {| workers.ContainerRunning := ∅; workers.ContainerResults := ∅;
     workers.firstRun := true |}.
Definition register_request : Request := request "GET" "/idle" "" "ACTIVATE" "".
Definition poll_request : Request := request "GET" "/idle" "" worker_key "".
Definition post_request : Request := request "PUT" "/idle" "" worker_key "result".

(** a caller whose call arrives at once, with the task *)
Definition prompt_caller : workers.caller :=
  {| workers.call_arrives := Some (0%Z, 1%nat);
     workers.input_arrives := Some "task";
     workers.result_taken := Some 0%Z |}.

(** a caller that is gone *)
Definition nobody_takes : workers.caller :=
  {| workers.call_arrives := None; workers.input_arrives := None;
     workers.result_taken := None |}.

(** a worker that takes the call at once and posts "result" *)
Definition prompt_worker : burst.peer :=
  {| burst.takes_code := Some 0%Z; burst.takes_input := Some 0%Z;
     burst.posts_output := Some (0%Z, "result") |}.

Definition two_messages : list string :=
  ["Message has started.aMessage has finished.";
   "Message has started.bMessage has finished."].

Definition idle_sentence : string :=
  "Burst container has key K and it is running idle.".
Definition idle_table : gmap string string := {[ "K" := idle_sentence ]}.
Definition finished_sentence : string :=
  "Burst container has key K and it is finished with the following result R".

(** a table whose record under K1 names the container K2 *)
Definition crossed_table : gmap string string :=
  {[ "K1" := "Burst container has key K2 and it is finished with the following result R" ]}.

Definition lambda_request : Request := request "PUT" "/run" "" "" "task".

Definition reply_reads : list (option string) :=
  [Some "Message has started.x"; Some "Message has finished."; None].

Definition activate_request : Request :=
  {| Method := "GET"; URL := "/activate"; Header := ∅;
     Query := {[ "apikey" := "CANDIDATE"; "activationkey" := "ACTIVATE" ]};
     Body := "" |}.
Definition bad_activate_request : Request := request "GET" "/activate" "" "CANDIDATE" "".

End site.

(** * Properties *)

(** ** Strings *)

Module strings_facts.

Import strings.

Lemma app_cons (c : ascii) (a b : string) :
  String c a +:+ b = String c (a +:+ b).
Proof. reflexivity. Qed.

Lemma app_empty (b : string) : "" +:+ b = b.
Proof. reflexivity. Qed.

Lemma app_empty_r (a : string) : a +:+ "" = a.
Proof. induction a; [reflexivity|]. rewrite app_cons. f_equal. assumption. Qed.

Lemma app_assoc (a b c : string) : a +:+ (b +:+ c) = (a +:+ b) +:+ c.
Proof. induction a; [reflexivity|]. rewrite !app_cons. f_equal. assumption. Qed.

Lemma prefix_split (p s : string) :
  String.prefix p s = true → s = p +:+ drop (String.length p) s.
Proof.
  revert s. induction p as [|c p IH]; intros s H.
  - reflexivity.
  - destruct s as [|d s]; simpl in H; [discriminate|].
    destruct (Ascii.ascii_dec c d) as [Hcd|]; [|discriminate].
    subst d. simpl. rewrite app_cons. f_equal. apply IH, H.
Qed.

Lemma prefix_app (p b : string) : String.prefix p (p +:+ b) = true.
Proof.
  induction p as [|c p IH].
  - destruct b; reflexivity.
  - rewrite app_cons. simpl.
    destruct (Ascii.ascii_dec c c); [exact IH|congruence].
Qed.

Lemma drop_app (p b : string) : drop (String.length p) (p +:+ b) = b.
Proof. induction p; [reflexivity|]. rewrite app_cons. simpl. assumption. Qed.

Lemma Contains_cons (c : ascii) (s old : string) :
  Contains s old → Contains (String c s) old.
Proof. intros (a & b & ->). exists (String c a), b. reflexivity. Qed.

Lemma Contains_prefix (s old : string) :
  String.prefix old s = true → Contains s old.
Proof.
  intros H. exists EmptyString, (drop (String.length old) s).
  rewrite app_empty. apply prefix_split, H.
Qed.

Lemma containsb_unfold (s old : string) :
  containsb s old
  = if String.prefix old s then true
    else match s with
         | EmptyString => false
         | String _ s' => containsb s' old
         end.
Proof. destruct s; reflexivity. Qed.

(** [containsb] decides [Contains] *)
Lemma containsb_spec (s old : string) :
  containsb s old = true ↔ Contains s old.
Proof.
  split.
  - induction s as [|c s IH]; rewrite containsb_unfold.
    + destruct (String.prefix old "") eqn:Hp; [|discriminate].
      intros _. apply Contains_prefix, Hp.
    + destruct (String.prefix old (String c s)) eqn:Hp.
      * intros _. apply Contains_prefix, Hp.
      * intros H. apply Contains_cons, IH, H.
  - intros (a & b & ->). induction a as [|c a IH].
    + rewrite app_empty, containsb_unfold, prefix_app. reflexivity.
    + rewrite app_cons, containsb_unfold.
      destruct (String.prefix old _); [reflexivity|exact IH].
Qed.

Lemma Replace1_unfold (s old new : string) :
  Replace1 s old new
  = if String.prefix old s then new +:+ drop (String.length old) s
    else match s with
         | EmptyString => EmptyString
         | String c s' => String c (Replace1 s' old new)
         end.
Proof. destruct s; reflexivity. Qed.

(** Without an occurrence of [old] the replacement gives [s] back. *)
Lemma Replace1_absent (s old new : string) :
  ¬ Contains s old → Replace1 s old new = s.
Proof.
  induction s as [|c s IH]; intros Hno; rewrite Replace1_unfold.
  - destruct (String.prefix old "") eqn:Hp; [|reflexivity].
    exfalso. apply Hno, Contains_prefix, Hp.
  - destruct (String.prefix old (String c s)) eqn:Hp.
    + exfalso. apply Hno, Contains_prefix, Hp.
    + f_equal. apply IH. intros H. apply Hno, Contains_cons, H.
Qed.

Lemma length_app (a b : string) :
  String.length (a +:+ b) = (String.length a + String.length b)%nat.
Proof. induction a; [reflexivity|]. rewrite app_cons. simpl. lia. Qed.

(** a common tail can be cancelled *)
Lemma app_inv_tail (a b t : string) : a +:+ t = b +:+ t → a = b.
Proof.
  revert b. induction a as [|c a IH]; intros [|d b] H.
  - reflexivity.
  - apply (f_equal String.length) in H.
    rewrite app_empty, app_cons in H. simpl in H. rewrite length_app in H. lia.
  - apply (f_equal String.length) in H.
    rewrite app_empty, app_cons in H. simpl in H. rewrite length_app in H. lia.
  - rewrite !app_cons in H. injection H as -> H. f_equal. apply IH, H.
Qed.


(** a string that begins with "http://" does not begin with "https://" *)
Lemma http_not_https (s : string) :
  HasPrefix s "http://" = true → HasPrefix s "https://" = false.
Proof.
  unfold HasPrefix. intros H. rewrite (prefix_split _ _ H). reflexivity.
Qed.

(** replacing [old] by itself changes nothing *)
Lemma Replace1_same (s old : string) : Replace1 s old old = s.
Proof.
  induction s as [|c s IH]; rewrite Replace1_unfold.
  - destruct (String.prefix old "") eqn:Hp; [|reflexivity].
    symmetry. apply prefix_split, Hp.
  - destruct (String.prefix old (String c s)) eqn:Hp.
    + symmetry. apply prefix_split, Hp.
    + f_equal. exact IH.
Qed.

End strings_facts.

(** ** Mesh: proxy, index and registry *)

Module mesh_facts.

Import mesh.

Section MeshFacts.

Context {E : Englang}.
Variable SiteUrl : string.
Variable MeshPattern : string.
Variable EnsureAdministrator : Request → option string.
Variable proxy_reply : string → string → string → string.

Lemma eqb_empty_false (s : string) : s ≠ "" → String.eqb s "" = false.
Proof. intros H. apply String.eqb_neq, H. Qed.

(** C3: [Proxy] answers 404 when the request has no [apikey] header or
    the index has no entry for the key, and 410 when the node that owns
    the key is marked as evicted in the registry; in each of these cases
    it returns an error and calls neither the HTTP proxy collaborator nor
    another node. *)
Theorem Proxy_unknown_or_gone (Nodes Index : gmap string string) (r : Request)
    (Hsyn : Synonym eviction_notice eviction_notice = true) :
  (key_unknown Index r →
     status_of (Proxy SiteUrl proxy_reply Nodes Index r).1 = Some StatusNotFound
     ∧ forwards (Proxy SiteUrl proxy_reply Nodes Index r).1 = []
     ∧ (Proxy SiteUrl proxy_reply Nodes Index r).2 = Some "not found")
  ∧ (key_gone Nodes Index r →
     status_of (Proxy SiteUrl proxy_reply Nodes Index r).1 = Some StatusGone
     ∧ forwards (Proxy SiteUrl proxy_reply Nodes Index r).1 = []
     ∧ (Proxy SiteUrl proxy_reply Nodes Index r).2 = Some "not found").
Proof.
  unfold Proxy, findServerOfApiKey, Header_Get, go_index. split.
  - intros [Hnone | Hnone].
    + rewrite Hnone. simpl. auto.
    + destruct (String.eqb (default "" (Header r !! "apikey")) "") eqn:Hk;
        [simpl; auto|].
      unfold Header_Get, go_index in Hnone. rewrite Hnone. simpl. auto.
  - intros (apiKey & server & Hh & Hk & Hi & Hs & Hn).
    rewrite Hh. simpl default.
    rewrite (eqb_empty_false apiKey Hk), Hi. simpl default.
    rewrite (eqb_empty_false server Hs), Hn. simpl default.
    rewrite Hsyn. simpl. auto.
Qed.

(** C9, as amended: for a request whose URL does not contain
    [metadata.SiteUrl], [Proxy] makes no forward and answers 404, also
    when the key is known and its owner is not evicted; the one exception
    is a known key whose owner is marked as evicted, where the earlier
    check answers 410. *)
Theorem Proxy_foreign_url (Nodes Index : gmap string string) (r : Request)
    (Hurl : ¬ strings.Contains (URL r) SiteUrl) :
  forwards (Proxy SiteUrl proxy_reply Nodes Index r).1 = []
  ∧ status_of (Proxy SiteUrl proxy_reply Nodes Index r).1
    = Some (if owner_evicted Nodes Index r then StatusGone else StatusNotFound)
  ∧ (Proxy SiteUrl proxy_reply Nodes Index r).2 = Some "not found".
Proof.
  unfold Proxy, owner_evicted.
  destruct (String.eqb (Header_Get r "apikey") "") eqn:Hk; [simpl; auto|].
  destruct (String.eqb (findServerOfApiKey Index (Header_Get r "apikey")) "")
    eqn:Hs; [simpl; auto|].
  destruct (Synonym _ eviction_notice) eqn:Hsyn; [simpl; auto|].
  rewrite (strings_facts.Replace1_absent _ _ _ Hurl), String.eqb_refl.
  simpl. auto.
Qed.

(** C5, as amended: a DELETE on [/node] that names an address already
    marked as evicted leaves the registry as it is and does not circle
    back: the request is forwarded along the ring once, on entry, as for
    every authorized request that names an address, and nothing else is
    sent or written. *)
Theorem node_delete_evicted (Nodes : gmap string string) (r : Request)
    (adminKey : string)
    (Hadmin : EnsureAdministrator r = Some adminKey)
    (Hmethod : Method r = "DELETE")
    (Haddress : Body r ≠ "")
    (Hevicted : Nodes !! Body r = Some eviction_notice) :
  (node_handler EnsureAdministrator Nodes r).1 = Nodes
  ∧ (node_handler EnsureAdministrator Nodes r).2
    = [QuantumGradeAuthorization; ForwardRoundRobinRingRequest r]
  ∧ forwards (node_handler EnsureAdministrator Nodes r).2
    = [ForwardRoundRobinRingRequest r].
Proof.
  unfold node_handler, go_index.
  rewrite Hadmin, (eqb_empty_false _ Haddress), Hmethod, Hevicted.
  simpl. auto.
Qed.

(** A DELETE that evicts a node forwards the request twice. *)
Lemma node_delete_active (Nodes : gmap string string) (r : Request)
    (adminKey status : string)
    (Hadmin : EnsureAdministrator r = Some adminKey)
    (Hmethod : Method r = "DELETE")
    (Haddress : Body r ≠ "")
    (Hnode : Nodes !! Body r = Some status)
    (Hknown : status ≠ "")
    (Hactive : status ≠ eviction_notice) :
  node_handler EnsureAdministrator Nodes r
  = (<[Body r := eviction_notice]> Nodes,
     [QuantumGradeAuthorization; ForwardRoundRobinRingRequest r;
      ForwardRoundRobinRingRequest r]).
Proof.
  unfold node_handler, go_index.
  rewrite Hadmin, (eqb_empty_false _ Haddress), Hmethod, Hnode.
  simpl default. rewrite (eqb_empty_false _ Hknown).
  apply String.eqb_neq in Hactive. rewrite Hactive. reflexivity.
Qed.

Lemma UpdateIndex_snoc (Index : gmap string string) (lines : list string)
    (line : string) :
  UpdateIndex MeshPattern Index (lines ++ [line])
  = index_line MeshPattern (UpdateIndex MeshPattern Index lines) line.
Proof. unfold UpdateIndex. rewrite foldl_app. reflexivity. Qed.

Lemma last_entry_nil (k s : string) : ¬ last_entry MeshPattern [] k s.
Proof. intros (b & l & a & H & _). destruct b; discriminate. Qed.

Lemma last_entry_snoc (lines : list string) (line k s : string) :
  last_entry MeshPattern (lines ++ [line]) k s
  ↔ entry_of MeshPattern line = Some (k, s)
    ∨ ((∀ s', entry_of MeshPattern line ≠ Some (k, s'))
       ∧ last_entry MeshPattern lines k s).
Proof.
  split.
  - intros (b & l & a & Heq & Hl & Hlater).
    destruct a as [|x a _] using rev_ind.
    + apply app_inj_tail in Heq as [_ <-]. left. exact Hl.
    + rewrite app_comm_cons, app_assoc in Heq.
      apply app_inj_tail in Heq as [-> <-]. right. split.
      * intros s'. apply Hlater. set_solver.
      * exists b, l, a. repeat split; auto.
        intros line' s' Hin. apply Hlater. set_solver.
  - intros [Hl | [Hno (b & l & a & -> & Hl & Hlater)]].
    + exists lines, line, []. repeat split; auto.
      intros line' s' Hin. set_solver.
    + exists b, l, (a ++ [line]). repeat split; auto.
      * rewrite <- app_assoc. reflexivity.
      * intros line' s' Hin. apply elem_of_app in Hin as [Hin|Hin].
        -- apply Hlater, Hin.
        -- apply list_elem_of_singleton in Hin as ->. apply Hno.
Qed.

(** C4: after [UpdateIndex] the index holds exactly the entries read from
    the stream.  A key is mapped to a server precisely when a line that
    matches the pattern spells that entry and no later line spells an
    entry of the same key; lines that do not match add nothing, and the
    index held before plays no part. *)
Theorem UpdateIndex_replaces (Index : gmap string string) (lines : list string)
    (apiKey server : string) :
  UpdateIndex MeshPattern Index lines !! apiKey = Some server
  ↔ last_entry MeshPattern lines apiKey server.
Proof.
  induction lines as [|line lines IH] using rev_ind.
  - split.
    + unfold UpdateIndex. simpl. rewrite lookup_empty. discriminate.
    + intros H. destruct (last_entry_nil _ _ H).
  - rewrite UpdateIndex_snoc, last_entry_snoc.
    unfold index_line, entry_of.
    destruct (Scanf line MeshPattern) as [vals|].
    + destruct (decide (englang.arg 0 vals = apiKey)) as [<-|Hne].
      * rewrite lookup_insert_eq. split.
        -- intros [= <-]. left. reflexivity.
        -- intros [[= <-] | [Hno _]]; [reflexivity|].
           destruct (Hno (englang.arg 1 vals)). reflexivity.
      * rewrite lookup_insert_ne by exact Hne. rewrite IH. split.
        -- intros H. right. split; [|exact H].
           intros s' [= ? ?]. contradiction.
        -- intros [[= ? ?] | [_ H]]; [contradiction|exact H].
    + rewrite IH. split.
      * intros H. right. split; [discriminate|exact H].
      * intros [? | [_ H]]; [discriminate|exact H].
Qed.

(** *** The registry over time *)

Lemma eviction_notice_not_empty : String.eqb eviction_notice "" = false.
Proof. reflexivity. Qed.

Lemma go_index_insert (m : gmap string string) (k v : string) :
  go_index (<[k := v]> m) k = v.
Proof. unfold go_index. rewrite lookup_insert_eq. reflexivity. Qed.

(** X1: serving the same request to [/node] a second time leaves the
    registry as the first time left it, whatever the request is. *)
Theorem node_handler_idempotent (Nodes : gmap string string) (r : Request) :
  (node_handler EnsureAdministrator
     (node_handler EnsureAdministrator Nodes r).1 r).1
  = (node_handler EnsureAdministrator Nodes r).1.
Proof.
  unfold node_handler.
  destruct (EnsureAdministrator r) as [adminKey|]; [|reflexivity].
  destruct (String.eqb (Body r) "") eqn:Hbody; [reflexivity|].
  destruct (String.eqb (Method r) "PUT").
  - destruct (String.eqb (go_index Nodes (Body r)) "") eqn:Hnew; simpl.
    + rewrite go_index_insert, Hbody. reflexivity.
    + rewrite Hnew. reflexivity.
  - destruct (String.eqb (Method r) "DELETE"); [|reflexivity].
    destruct (String.eqb (go_index Nodes (Body r)) "") eqn:Hnew; simpl;
      [rewrite Hnew; reflexivity|].
    destruct (String.eqb (go_index Nodes (Body r)) eviction_notice) eqn:Hev;
      simpl.
    + rewrite Hnew, Hev. reflexivity.
    + rewrite go_index_insert, eviction_notice_not_empty, String.eqb_refl.
      reflexivity.
Qed.

(** one request keeps every entry, and keeps an eviction notice *)
Lemma node_handler_keeps (Nodes : gmap string string) (r : Request)
    (a status : string) :
  Nodes !! a = Some status →
  ∃ status', (node_handler EnsureAdministrator Nodes r).1 !! a = Some status'
             ∧ (status = eviction_notice → status' = eviction_notice).
Proof.
  intros Ha. unfold node_handler.
  destruct (EnsureAdministrator r) as [adminKey|]; [|eauto].
  destruct (String.eqb (Body r) ""); [eauto|].
  destruct (String.eqb (Method r) "PUT").
  - destruct (String.eqb (go_index Nodes (Body r)) "") eqn:Hnew; simpl;
      [|eauto].
    destruct (decide (Body r = a)) as [Heq|Hne].
    + rewrite Heq, lookup_insert_eq. eexists; split; [reflexivity|].
      intros ->. apply String.eqb_eq in Hnew.
      unfold go_index in Hnew. rewrite Heq, Ha in Hnew. discriminate Hnew.
    + rewrite lookup_insert_ne by exact Hne. eauto.
  - destruct (String.eqb (Method r) "DELETE"); [|eauto].
    destruct (String.eqb (go_index Nodes (Body r)) ""); [eauto|].
    destruct (String.eqb (go_index Nodes (Body r)) eviction_notice); [eauto|].
    simpl. destruct (decide (Body r = a)) as [Heq|Hne].
    + rewrite Heq, lookup_insert_eq. eauto.
    + rewrite lookup_insert_ne by exact Hne. eauto.
Qed.

(** X2: the registry only grows, and an eviction is final: after any
    sequence of requests to [/node] an address that had an entry still
    has one, and an address that had the eviction notice still has it (a
    later PUT of the address does not bring the node back). *)
Theorem registry_keeps_tombstones (Nodes : gmap string string)
    (rs : list Request) (a status : string)
    (Hentry : Nodes !! a = Some status) :
  ∃ status', serve_nodes EnsureAdministrator Nodes rs !! a = Some status'
             ∧ (status = eviction_notice → status' = eviction_notice).
Proof.
  revert Nodes status Hentry. unfold serve_nodes.
  induction rs as [|r rs IH]; intros Nodes status Hentry; simpl.
  - eauto.
  - destruct (node_handler_keeps Nodes r a status Hentry) as (s1 & H1 & Hev1).
    destruct (IH _ _ H1) as (s2 & H2 & Hev2).
    exists s2. split; [exact H2|]. intros Hs. apply Hev2, Hev1, Hs.
Qed.

Lemma node_url_inj (node node' adminKey : string) :
  node_url node adminKey = node_url node' adminKey → node = node'.
Proof. unfold node_url. apply strings_facts.app_inv_tail. Qed.

(** X3: a PUT on [/node] that names a new address enters it with itself
    as status and sends the join, with the administrator key, to exactly
    the nodes of the new registry that do not carry the eviction notice;
    no call goes to an evicted node. *)
Theorem join_propagation (Nodes : gmap string string) (r : Request)
    (adminKey : string)
    (Hadmin : EnsureAdministrator r = Some adminKey)
    (Hmethod : Method r = "PUT")
    (Haddress : Body r ≠ "")
    (Hnew : go_index Nodes (Body r) = "") :
  (node_handler EnsureAdministrator Nodes r).1 = <[Body r := Body r]> Nodes
  ∧ ∀ node,
      NewRoundRobinCall (node_url node adminKey) "PUT" (Body r)
        ∈ (node_handler EnsureAdministrator Nodes r).2
      ↔ ∃ status, <[Body r := Body r]> Nodes !! node = Some status
                  ∧ status ≠ eviction_notice.
Proof.
  unfold node_handler.
  rewrite Hadmin, (eqb_empty_false _ Haddress), Hmethod, Hnew. simpl.
  split; [reflexivity|]. intros node.
  rewrite !elem_of_cons. unfold propagate_join.
  rewrite list_elem_of_In, in_flat_map. split.
  - intros [Hc|[Hc|((n, st) & Hin & Hcall)]]; [discriminate|discriminate|].
    destruct (String.eqb st eviction_notice) eqn:Hst; simpl in Hcall;
      [destruct Hcall|].
    destruct Hcall as [Hcall|[]]. injection Hcall as Hurl.
    apply node_url_inj in Hurl. subst n.
    exists st. split.
    + apply elem_of_map_to_list, list_elem_of_In, Hin.
    + apply String.eqb_neq, Hst.
  - intros (st & Hlook & Hst). right. right.
    exists (node, st). split.
    + apply list_elem_of_In, elem_of_map_to_list, Hlook.
    + apply String.eqb_neq in Hst. rewrite Hst. simpl. left. reflexivity.
Qed.

(** *** Proxy *)

Lemma Proxy_evicted (Nodes Index : gmap string string) (r : Request)
    (apiKey server : string) :
  Synonym eviction_notice eviction_notice = true →
  Header r !! "apikey" = Some apiKey → apiKey ≠ "" →
  Index !! apiKey = Some server → server ≠ "" →
  Nodes !! server = Some eviction_notice →
  Proxy SiteUrl proxy_reply Nodes Index r
  = ([WriteHeader StatusGone], Some "not found").
Proof.
  intros Hsyn Hh Hk Hi Hs Hn.
  unfold Proxy, findServerOfApiKey, Header_Get, go_index.
  rewrite Hh. simpl default.
  rewrite (eqb_empty_false apiKey Hk), Hi. simpl default.
  rewrite (eqb_empty_false server Hs), Hn. simpl default.
  rewrite Hsyn. reflexivity.
Qed.

(** X4: once an authorized DELETE on [/node] has named a node of the
    registry, [Proxy] answers 410 for every key the index gives to that
    node, and forwards nothing. *)
Theorem evicted_node_is_gone (Nodes Index : gmap string string)
    (delete r : Request) (adminKey apiKey : string)
    (Hsyn : Synonym eviction_notice eviction_notice = true)
    (Hadmin : EnsureAdministrator delete = Some adminKey)
    (Hmethod : Method delete = "DELETE")
    (Haddress : Body delete ≠ "")
    (Hknown : go_index Nodes (Body delete) ≠ "")
    (Hheader : Header r !! "apikey" = Some apiKey)
    (Hkey : apiKey ≠ "")
    (Howner : Index !! apiKey = Some (Body delete)) :
  status_of (Proxy SiteUrl proxy_reply
               (node_handler EnsureAdministrator Nodes delete).1 Index r).1
    = Some StatusGone
  ∧ forwards (Proxy SiteUrl proxy_reply
                (node_handler EnsureAdministrator Nodes delete).1 Index r).1 = [].
Proof.
  assert (Hnode : (node_handler EnsureAdministrator Nodes delete).1
                  !! Body delete = Some eviction_notice).
  { unfold node_handler.
    rewrite Hadmin, (eqb_empty_false _ Haddress), Hmethod,
      (eqb_empty_false _ Hknown). simpl.
    destruct (String.eqb (go_index Nodes (Body delete)) eviction_notice)
      eqn:Hev; simpl.
    - apply String.eqb_eq in Hev. unfold go_index in Hev, Hknown.
      destruct (Nodes !! Body delete) as [s|]; simpl in *; congruence.
    - apply lookup_insert_eq. }
  rewrite (Proxy_evicted _ Index r apiKey (Body delete) Hsyn Hheader Hkey
             Howner Haddress Hnode).
  split; reflexivity.
Qed.


(** X6: the address [Proxy] calls carries the scheme of the site URL,
    "http://" or "https://", whether the index entry has a scheme or not. *)
Theorem with_scheme_of_site (server scheme : string)
    (Hscheme : scheme = "http://" ∨ scheme = "https://")
    (Hsite : strings.HasPrefix SiteUrl scheme = true) :
  strings.HasPrefix (with_scheme SiteUrl server) scheme = true.
Proof.
  unfold with_scheme. destruct Hscheme as [-> | ->].
  - rewrite Hsite, (strings_facts.http_not_https _ Hsite). simpl.
    destruct (strings.HasPrefix server "http://") eqn:Hs; simpl.
    + exact Hs.
    + apply strings_facts.prefix_app.
  - destruct (strings.HasPrefix SiteUrl "http://") eqn:Hhttp.
    + rewrite (strings_facts.http_not_https _ Hhttp) in Hsite. discriminate.
    + rewrite Hsite. simpl.
      destruct (strings.HasPrefix server "https://") eqn:Hs; simpl.
      * exact Hs.
      * apply strings_facts.prefix_app.
Qed.

(** X7: [Proxy] either rejects or forwards, never both.  When it returns
    an error it has written 404 or 410, no body, and called nobody; when
    it returns nil it has written no status, made one call, to a URL that
    differs from the URL of the request, and written the reply. *)
Theorem Proxy_rejects_or_forwards (Nodes Index : gmap string string)
    (r : Request) :
  ((Proxy SiteUrl proxy_reply Nodes Index r).2 = Some "not found"
   ∧ (status_of (Proxy SiteUrl proxy_reply Nodes Index r).1 = Some StatusNotFound
      ∨ status_of (Proxy SiteUrl proxy_reply Nodes Index r).1 = Some StatusGone)
   ∧ forwards (Proxy SiteUrl proxy_reply Nodes Index r).1 = []
   ∧ body_of (Proxy SiteUrl proxy_reply Nodes Index r).1 = "")
  ∨ ((Proxy SiteUrl proxy_reply Nodes Index r).2 = None
     ∧ status_of (Proxy SiteUrl proxy_reply Nodes Index r).1 = None
     ∧ ∃ url, url ≠ URL r
         ∧ forwards (Proxy SiteUrl proxy_reply Nodes Index r).1
           = [HttpProxyRequest url (Method r) (Body r)]
         ∧ body_of (Proxy SiteUrl proxy_reply Nodes Index r).1
           = proxy_reply url (Method r) (Body r)).
Proof.
  unfold Proxy.
  destruct (String.eqb (Header_Get r "apikey") ""); [left; simpl; auto|].
  destruct (String.eqb (findServerOfApiKey _ _) ""); [left; simpl; auto|].
  destruct (Synonym _ _); [left; simpl; auto|].
  destruct (String.eqb _ (URL r)) eqn:Hsame; [left; simpl; auto|].
  right. simpl. repeat split.
  eexists. split; [|split; [reflexivity|]].
  - apply String.eqb_neq, Hsame.
  - apply strings_facts.app_empty_r.
Qed.

(** *** Index *)

(** X8: a batch in which no line matches the pattern, the empty batch
    among them, leaves the index empty, whatever it held before. *)
Theorem UpdateIndex_no_sentence (Index : gmap string string)
    (lines : list string)
    (Hnone : ∀ line, line ∈ lines → Scanf line MeshPattern = None) :
  UpdateIndex MeshPattern Index lines = ∅.
Proof.
  induction lines as [|line lines IH] using rev_ind; [reflexivity|].
  rewrite UpdateIndex_snoc, IH.
  - unfold index_line. rewrite Hnone; [reflexivity|].
    apply elem_of_app. right. apply list_elem_of_here.
  - intros l Hl. apply Hnone, elem_of_app. left. exact Hl.
Qed.

(** X9: a key whose owner, with the scheme of the site, is the site URL
    itself is answered 404: the rewrite leaves the URL as it is, and
    [Proxy] does not call the site. *)
Theorem Proxy_never_calls_the_site (Nodes Index : gmap string string)
    (r : Request)
    (Hlocal : with_scheme SiteUrl
                (findServerOfApiKey Index (Header_Get r "apikey")) = SiteUrl) :
  forwards (Proxy SiteUrl proxy_reply Nodes Index r).1 = []
  ∧ (Proxy SiteUrl proxy_reply Nodes Index r).2 = Some "not found"
  ∧ (owner_evicted Nodes Index r = false →
     status_of (Proxy SiteUrl proxy_reply Nodes Index r).1 = Some StatusNotFound).
Proof.
  unfold Proxy, owner_evicted.
  destruct (String.eqb (Header_Get r "apikey") ""); [simpl; auto|].
  destruct (String.eqb (findServerOfApiKey _ _) ""); [simpl; auto|].
  destruct (Synonym _ _); [simpl; split; [|split]; auto; discriminate|].
  rewrite Hlocal, strings_facts.Replace1_same, String.eqb_refl. simpl. auto.
Qed.

End MeshFacts.

End mesh_facts.

(** ** Burst: the session handler of /run *)

Module burst_facts.

Import burst.

Section BurstFacts.

Context {E : Englang}.
Variable MaxBurstRuntime : Z.

(** C7: a call of [/run] whose [apikey] is not a key of [BurstSession] is
    answered with 402 and the payment message; the handler performs no
    operation on the task channel or on a call channel and does not
    block. *)
Theorem run_without_session (BurstSession : gmap string string) (r : Request)
    (p : peer)
    (Hnone : BurstSession !! Query_Get r "apikey" = None) :
  (run_handler MaxBurstRuntime BurstSession r p).1
    = [QuantumGradeAuthorization; WriteHeader StatusPaymentRequired;
       Write payment_message]
  ∧ status_of (run_handler MaxBurstRuntime BurstSession r p).1
    = Some StatusPaymentRequired
  ∧ body_of (run_handler MaxBurstRuntime BurstSession r p).1 = payment_message
  ∧ channel_ops (run_handler MaxBurstRuntime BurstSession r p).1 = []
  ∧ (run_handler MaxBurstRuntime BurstSession r p).2 = 0%Z.
Proof. unfold run_handler. rewrite Hnone. simpl. auto. Qed.

(** With a session and nobody to receive from [code], the three
    [select]s all end by their timers. *)
Lemma run_no_receiver (BurstSession : gmap string string) (r : Request)
    (p : peer) (session : string)
    (Hsession : BurstSession !! Query_Get r "apikey" = Some session)
    (Hnobody : takes_code p = None) :
  run_handler MaxBurstRuntime BurstSession r p
  = ([SendCode false; SendCall (Body r) false; ReceiveCall None],
     (After MaxBurstRuntime + After MaxBurstRuntime
      + After (wrap64 (MaxBurstRuntime + MaxBurstRuntime)))%Z).
Proof. unfold run_handler. rewrite Hsession, Hnobody. reflexivity. Qed.

Lemma wrap64_small (z : Z) : (- 2 ^ 63 <= z < 2 ^ 63)%Z → wrap64 z = z.
Proof.
  intros H. unfold wrap64.
  rewrite Z.mod_small by lia. lia.
Qed.

(** C1, as amended: with a session and no receiver on the task channel
    the handler returns with an empty body and no status of its own after
    its three bounded waits: the runtime budget twice and then twice the
    runtime budget, four times the budget in total. *)
Theorem run_no_worker_returns (BurstSession : gmap string string) (r : Request)
    (p : peer) (session : string)
    (Hsession : BurstSession !! Query_Get r "apikey" = Some session)
    (Hnobody : takes_code p = None)
    (Hbudget : (0 < MaxBurstRuntime < 2 ^ 62)%Z) :
  body_of (run_handler MaxBurstRuntime BurstSession r p).1 = ""
  ∧ status_of (run_handler MaxBurstRuntime BurstSession r p).1 = None
  ∧ (run_handler MaxBurstRuntime BurstSession r p).2 = (4 * MaxBurstRuntime)%Z.
Proof.
  rewrite (run_no_receiver _ _ _ _ Hsession Hnobody). simpl.
  repeat split.
  rewrite wrap64_small by lia. unfold After. lia.
Qed.

Lemma StartBurst_none (entries : list (string * string)) (code : string)
    (Container : gmap string string) :
  Forall (λ kc, idle kc.2 = false) entries →
  StartBurst entries code Container = ("", Container).
Proof.
  induction 1 as [|[k c] entries Hc _ IH]; [reflexivity|].
  simpl in *. unfold idle in Hc.
  destruct (Scanf1 c running_pattern) as [vals|]; [|exact IH].
  rewrite Hc. exact IH.
Qed.

Lemma StartBurst_head (k c : string) (entries : list (string * string))
    (code : string) (Container : gmap string string) :
  idle c = true →
  StartBurst ((k, c) :: entries) code Container
  = (k, <[k := running_record k code]> Container).
Proof.
  unfold idle. simpl. intros Hc.
  destruct (Scanf1 c running_pattern) as [vals|]; [|discriminate].
  rewrite Hc. reflexivity.
Qed.

(** C8, as amended: a call of [/run] with a session, made while nobody
    receives from the task channel, gets an empty body after the three
    timers of the handler.  The sentence "The system is busy. Please
    reload." is what [RunBurst] returns as its first component, with an
    empty output, when no container is idle. *)
Theorem run_busy_empty_body (BurstSession : gmap string string) (r : Request)
    (p : peer) (session : string)
    (Hsession : BurstSession !! Query_Get r "apikey" = Some session)
    (Hnobody : takes_code p = None) :
  body_of (run_handler MaxBurstRuntime BurstSession r p).1 = ""
  ∧ (run_handler MaxBurstRuntime BurstSession r p).2
    = (After MaxBurstRuntime + After MaxBurstRuntime
       + After (wrap64 (MaxBurstRuntime + MaxBurstRuntime)))%Z
  ∧ ∀ entries yield code Container,
      Forall (λ kc, idle kc.2 = false) entries →
      RunBurst entries yield code Container = ((busy_message, ""), Container).
Proof.
  rewrite (run_no_receiver _ _ _ _ Hsession Hnobody). simpl.
  repeat split.
  intros entries yield code Container Hbusy.
  unfold RunBurst. rewrite (StartBurst_none _ _ _ Hbusy). reflexivity.
Qed.

(** The handler that calls [RunBurst] takes the sentence for a container
    key: unless a record is stored under it, its body is empty as well. *)
Lemma lambda_handler_busy (entries : list (string * string))
    (yield : interference) (Container : gmap string string) (r : Request) :
  Forall (λ kc, idle kc.2 = false) entries →
  yield 15%nat Container !! busy_message = None →
  lambda_handler entries yield Container r
  = ([Sleep (3 * Second)], yield 15%nat Container).
Proof.
  intros Hbusy Hnone. unfold lambda_handler, RunBurst.
  rewrite (StartBurst_none _ _ _ Hbusy). simpl.
  unfold GetBurst. rewrite Hnone. reflexivity.
Qed.

(** ** Burst: UDP framing *)

Lemma accumulated_cons (datagram : string) (ok : bool)
    (reads : list (string * bool)) :
  accumulated ((datagram, ok) :: reads)
  = strings.take 1024 datagram +:+ accumulated reads.
Proof. reflexivity. Qed.

Lemma accept_datagram_partial (handler : string → string)
    (message datagram : string) (ok : bool) :
  IsMessageComplete (message +:+ strings.take 1024 datagram) = false →
  accept_datagram handler message datagram ok
  = ([], message +:+ strings.take 1024 datagram, true).
Proof. unfold accept_datagram. intros ->. reflexivity. Qed.

Lemma accept_datagram_complete (handler : string → string)
    (message datagram : string) (ok : bool) :
  IsMessageComplete (message +:+ strings.take 1024 datagram) = true →
  ∃ acts go_on,
    accept_datagram handler message datagram ok = (acts, "", go_on)
    ∧ handled acts = [message +:+ strings.take 1024 datagram].
Proof.
  unfold accept_datagram. intros ->.
  destruct (negb _); eexists _, _; split; reflexivity.
Qed.

(** While no accumulated buffer is complete, the loop only accumulates. *)
Lemma acceptMessage_partial (handler : string → string)
    (init : list (string * bool)) :
  ∀ (message : string) (rest : list (string * bool)),
    (∀ k, (0 < k ≤ length init)%nat →
          IsMessageComplete (message +:+ accumulated (take k init)) = false) →
    acceptMessage handler message (init ++ rest)
    = acceptMessage handler (message +:+ accumulated init) rest.
Proof.
  induction init as [|[d ok] init IH]; intros message rest Hpart.
  - simpl. rewrite strings_facts.app_empty_r. reflexivity.
  - rewrite <- app_comm_cons. cbn [acceptMessage].
    rewrite accept_datagram_partial.
    + rewrite IH.
      * rewrite accumulated_cons, strings_facts.app_assoc.
        destruct (acceptMessage _ _ rest). reflexivity.
      * intros k Hk.
        rewrite <- strings_facts.app_assoc, <- (accumulated_cons d ok).
        apply (Hpart (S k)). simpl. lia.
    + specialize (Hpart 1%nat).
      change (take 1 ((d, ok) :: init)) with [(d, ok)] in Hpart.
      change (accumulated [(d, ok)]) with (strings.take 1024 d +:+ "") in Hpart.
      rewrite strings_facts.app_empty_r in Hpart. apply Hpart. simpl. lia.
Qed.

(** C2, as amended: when the datagrams read so far spell
    "Message has started." + p + "Message has finished.", no shorter
    accumulation matched the pattern and this one does, the receiver hands
    the whole accumulated buffer, sentinels included, to the handler, once,
    and empties its buffer; a buffer that does not match the pattern is
    kept and nothing is handed over. *)
Theorem acceptMessage_frame (handler : string → string)
    (init : list (string * bool)) (last : string) (ok : bool) (p : string)
    (Hpartial : ∀ k, (0 < k ≤ length init)%nat →
       IsMessageComplete (accumulated (take k init)) = false)
    (Hwhole : accumulated (init ++ [(last, ok)])
              = message_start +:+ p +:+ message_end)
    (Hcomplete : IsMessageComplete (message_start +:+ p +:+ message_end) = true) :
  handled (acceptMessage handler "" (init ++ [(last, ok)])).1
    = [message_start +:+ p +:+ message_end]
  ∧ (acceptMessage handler "" (init ++ [(last, ok)])).2 = ""
  ∧ ∀ message datagram w,
      IsMessageComplete (message +:+ strings.take 1024 datagram) = false →
      accept_datagram handler message datagram w
      = ([], message +:+ strings.take 1024 datagram, true).
Proof.
  assert (Hacc : accumulated (init ++ [(last, ok)])
                 = accumulated init +:+ strings.take 1024 last).
  { clear. induction init as [|[d o] init IH].
    - simpl. apply strings_facts.app_empty_r.
    - rewrite <- app_comm_cons, !accumulated_cons, IH.
      apply strings_facts.app_assoc. }
  rewrite acceptMessage_partial by exact Hpartial.
  rewrite strings_facts.app_empty.
  rewrite Hacc in Hwhole. rewrite <- Hwhole in Hcomplete |- *.
  destruct (accept_datagram_complete handler _ _ ok Hcomplete)
    as (acts & go_on & Hstep & Hacts).
  cbn [acceptMessage]. rewrite Hstep.
  split; [|split].
  - destruct go_on; simpl; [|exact Hacts].
    unfold handled in *. rewrite omap_app, Hacts. reflexivity.
  - destruct go_on; reflexivity.
  - intros message datagram w. apply accept_datagram_partial.
Qed.

(** ** Burst: the container table *)

Lemma range_of_insert (Container : gmap string string) (k v : string) :
  range_of (<[k := v]> Container)
    ((k, v) :: map_to_list (delete k Container)).
Proof.
  unfold range_of. rewrite <- (insert_delete_eq Container k v).
  symmetry. apply map_to_list_insert, lookup_delete_eq.
Qed.

(** C6: when the record of container [k] spells the finished state of
    [k] with result [r], [GetBurst k] returns [r] and stores the idle
    sentence of [k]; the [range] of a following [StartBurst] can then meet
    this record first, and [StartBurst] takes slot [k].  When the record
    of [k] does not spell a finished state, or there is none, [GetBurst]
    returns the empty string and the table stays as it is. *)
Theorem GetBurst_slot_reuse (Container : gmap string string) (k : string) :
  (∀ content r,
     Container !! k = Some content →
     finished content = Some (k, r) →
     idle (idle_record k) = true →
     GetBurst k Container = (r, <[k := idle_record k]> Container)
     ∧ ∀ code, ∃ entries,
         range_of (<[k := idle_record k]> Container) entries
         ∧ StartBurst entries code (<[k := idle_record k]> Container)
           = (k, <[k := running_record k code]> Container))
  ∧ ((∀ content, Container !! k = Some content → finished content = None) →
     GetBurst k Container = ("", Container)).
Proof.
  split.
  - intros content r Hrec Hfin Hidle. split.
    + unfold GetBurst, finished in *. rewrite Hrec.
      destruct (Scanf1 _ _) as [vals|]; [|discriminate].
      injection Hfin as -> ->. reflexivity.
    + intros code. eexists. split; [apply range_of_insert|].
      rewrite StartBurst_head by exact Hidle.
      rewrite insert_insert_eq. reflexivity.
  - intros Hnot. unfold GetBurst.
    destruct (Container !! k) as [content|] eqn:Hrec; [|reflexivity].
    specialize (Hnot content eq_refl). unfold finished in Hnot.
    destruct (Scanf1 _ _); [discriminate|reflexivity].
Qed.

(** ** Burst: more on the handler of /run *)

Lemma select_wait_bound (d : Z) (ready : option Z) :
  (0 <= (select_wait d ready).2 <= After d)%Z.
Proof.
  unfold select_wait, After.
  destruct ready as [t|]; simpl; [|lia].
  destruct (Z.ltb_spec (Z.max 0 t) (Z.max 0 d)); simpl; lia.
Qed.

Lemma select_wait_ready (d t : Z) :
  (0 <= t < d)%Z → select_wait d (Some t) = (true, t).
Proof.
  intros H. unfold select_wait, After.
  rewrite !Z.max_r by lia.
  destruct (Z.ltb_spec t d); [reflexivity|lia].
Qed.

Lemma body_of_copy_out (output : string) : body_of (copy_out output) = output.
Proof.
  unfold copy_out. destruct (String.eqb output "") eqn:H.
  - apply String.eqb_eq in H. subst. reflexivity.
  - simpl. apply strings_facts.app_empty_r.
Qed.

(** X14: with a session, whatever the other side of the channels does,
    the handler of [/run] returns after at most four times the runtime
    budget, writes no status, and its body is either empty or the output
    posted by a worker that took the call channel from the task channel
    before the first timer. *)
Theorem run_handler_bounded (BurstSession : gmap string string) (r : Request)
    (p : peer) (session : string)
    (Hsession : BurstSession !! Query_Get r "apikey" = Some session)
    (Hbudget : (0 < MaxBurstRuntime < 2 ^ 62)%Z) :
  (0 <= (run_handler MaxBurstRuntime BurstSession r p).2 <= 4 * MaxBurstRuntime)%Z
  ∧ status_of (run_handler MaxBurstRuntime BurstSession r p).1 = None
  ∧ (body_of (run_handler MaxBurstRuntime BurstSession r p).1 = ""
     ∨ ∃ t1 t3,
         takes_code p = Some t1 ∧ (t1 < MaxBurstRuntime)%Z
         ∧ posts_output p
           = Some (t3, body_of (run_handler MaxBurstRuntime BurstSession r p).1)).
Proof.
  unfold run_handler. rewrite Hsession.
  pose proof (select_wait_bound MaxBurstRuntime (takes_code p)) as H1.
  destruct (select_wait MaxBurstRuntime (takes_code p)) as [sent w1] eqn:E1.
  pose proof (select_wait_bound MaxBurstRuntime
                (if sent then takes_input p else None)) as H2.
  destruct (select_wait MaxBurstRuntime (if sent then _ else _)) as [given w2].
  pose proof (select_wait_bound (wrap64 (MaxBurstRuntime + MaxBurstRuntime))
                (fst <$> (if sent then posts_output p else None))) as H3.
  destruct (select_wait (wrap64 _) _) as [got w3] eqn:E3.
  rewrite wrap64_small in H3 by lia.
  unfold After in *. simpl in *. split; [lia|].
  assert (Hstatus : ∀ o, status_of (from_option copy_out [] o) = None).
  { intros [o|]; simpl; [|reflexivity].
    unfold copy_out. destruct (String.eqb o ""); reflexivity. }
  split; [apply Hstatus|].
  destruct got; [|left; reflexivity].
  destruct sent; [|discriminate E3].
  destruct (posts_output p) as [[t3 o]|] eqn:Hpost; [|left; reflexivity].
  right. simpl. rewrite body_of_copy_out.
  unfold select_wait in E1. destruct (takes_code p) as [t1|]; [|discriminate].
  exists t1, t3. repeat split.
  destruct (Z.ltb_spec (Z.max 0 t1) (After MaxBurstRuntime)); [|discriminate].
  unfold After in *. lia.
Qed.

(** X15: with a session, a worker that takes the call channel before the
    first timer and posts its output before the last one gets the output
    to the caller: the body is the output, also when the input was never
    taken. *)
Theorem run_delivers_result (BurstSession : gmap string string) (r : Request)
    (p : peer) (session output : string) (t1 t3 : Z)
    (Hsession : BurstSession !! Query_Get r "apikey" = Some session)
    (Hbudget : (0 < MaxBurstRuntime < 2 ^ 62)%Z)
    (Htakes : takes_code p = Some t1)
    (Hearly : (0 <= t1 < MaxBurstRuntime)%Z)
    (Hposts : posts_output p = Some (t3, output))
    (Hintime : (0 <= t3 < 2 * MaxBurstRuntime)%Z) :
  body_of (run_handler MaxBurstRuntime BurstSession r p).1 = output
  ∧ ReceiveCall (Some output) ∈ (run_handler MaxBurstRuntime BurstSession r p).1.
Proof.
  unfold run_handler. rewrite Hsession, Htakes.
  rewrite (select_wait_ready _ _ Hearly).
  destruct (select_wait MaxBurstRuntime (takes_input p)) as [given w2].
  rewrite Hposts. simpl fmap.
  rewrite wrap64_small by lia.
  rewrite select_wait_ready by lia.
  simpl. split; [apply body_of_copy_out|].
  rewrite !elem_of_cons. auto.
Qed.

(** ** Burst: more on the UDP receiver *)

Lemma take_all (n : nat) (s : string) :
  (String.length s ≤ n)%nat → strings.take n s = s.
Proof.
  revert n. induction s as [|c s IH]; intros [|n] H; simpl in *;
    try reflexivity; try lia.
  f_equal. apply IH. lia.
Qed.

Lemma handled_Handle (m : string) (t : list udp_action) :
  handled (Handle m :: t) = m :: handled t.
Proof. reflexivity. Qed.

Lemma handled_WriteToUDP (reply : string) (t : list udp_action) :
  handled (WriteToUDP reply :: t) = handled t.
Proof. reflexivity. Qed.

(** X16: when every datagram is a complete message of at most 1024 bytes
    and every reply is written, the handler is given each message once,
    in the order of arrival, and the buffer is empty at the end. *)
Theorem acceptMessage_one_per_datagram (handler : string → string)
    (messages : list string)
    (Hwhole : ∀ m, m ∈ messages →
       (String.length m ≤ 1024)%nat ∧ IsMessageComplete m = true) :
  handled (acceptMessage handler "" (map (λ m, (m, true)) messages)).1 = messages
  ∧ (acceptMessage handler "" (map (λ m, (m, true)) messages)).2 = "".
Proof.
  induction messages as [|m messages IH]; [split; reflexivity|].
  destruct (Hwhole m) as [Hlen Hcomplete]; [apply list_elem_of_here|].
  destruct IH as [IH1 IH2];
    [intros m' Hm'; apply Hwhole, list_elem_of_further, Hm'|].
  cbn [map acceptMessage]. unfold accept_datagram.
  rewrite (take_all _ _ Hlen), strings_facts.app_empty, Hcomplete.
  destruct (negb (String.eqb (handler m) "")); cbv beta iota;
    destruct (acceptMessage handler "" (map _ messages)) as [rest final];
    cbn [fst snd app] in *; rewrite ?handled_Handle, ?handled_WriteToUDP;
    rewrite IH1, IH2; split; reflexivity.
Qed.

(** X17: a buffer that no continuation completes is never recovered:
    whatever arrives afterwards is appended to it, and nothing is given
    to the handler, also not a later message that is complete by itself. *)
Theorem acceptMessage_never_recovers (handler : string → string)
    (message : string) (reads : list (string * bool))
    (Hstuck : ∀ rest, IsMessageComplete (message +:+ rest) = false) :
  handled (acceptMessage handler message reads).1 = []
  ∧ (acceptMessage handler message reads).2 = message +:+ accumulated reads.
Proof.
  revert message Hstuck.
  induction reads as [|[d ok] reads IH]; intros message Hstuck.
  - simpl. split; [reflexivity|]. symmetry. apply strings_facts.app_empty_r.
  - cbn [acceptMessage]. rewrite accept_datagram_partial by apply Hstuck.
    destruct (IH (message +:+ strings.take 1024 d)) as [IH1 IH2].
    { intros rest. rewrite <- strings_facts.app_assoc. apply Hstuck. }
    destruct (acceptMessage handler _ reads) as [rest final].
    cbn [fst snd app] in *. split; [exact IH1|].
    rewrite IH2, accumulated_cons, strings_facts.app_assoc. reflexivity.
Qed.

(** X18: when the write of a reply fails the receiver stops: the message
    that was answered is the last one given to the handler, whatever
    datagrams would follow. *)
Theorem acceptMessage_stops_on_failed_reply (handler : string → string)
    (message datagram : string) (rest : list (string * bool))
    (Hcomplete : IsMessageComplete (message +:+ strings.take 1024 datagram) = true)
    (Hreply : handler (message +:+ strings.take 1024 datagram) ≠ "") :
  handled (acceptMessage handler message ((datagram, false) :: rest)).1
    = [message +:+ strings.take 1024 datagram]
  ∧ Close ∉ (acceptMessage handler message ((datagram, false) :: rest)).1.
Proof.
  cbn [acceptMessage]. unfold accept_datagram. rewrite Hcomplete.
  apply String.eqb_neq in Hreply. rewrite Hreply. simpl.
  split; [reflexivity|].
  rewrite !elem_of_cons, elem_of_nil. intros [H|[H|[]]]; discriminate H.
Qed.

(** ** Burst: more on the container table *)

(** X19: [StartBurst] takes the first record of the range that reads as
    idle, writes the running sentence with the code into that slot and
    into no other, and returns its key; when no record reads as idle it
    returns the empty string and leaves the table as it is. *)
Theorem StartBurst_takes_first_idle (entries : list (string * string))
    (code : string) (Container : gmap string string) :
  (Forall (λ kc, idle kc.2 = false) entries
   ∧ StartBurst entries code Container = ("", Container))
  ∨ ∃ before k c after,
      entries = before ++ (k, c) :: after
      ∧ Forall (λ kc, idle kc.2 = false) before
      ∧ idle c = true
      ∧ StartBurst entries code Container
        = (k, <[k := running_record k code]> Container).
Proof.
  induction entries as [|[k c] entries IH].
  - left. split; [constructor|reflexivity].
  - destruct (idle c) eqn:Hc.
    + right. exists [], k, c, entries.
      repeat split; [constructor|exact Hc|apply StartBurst_head, Hc].
    + assert (Hskip : StartBurst ((k, c) :: entries) code Container
                      = StartBurst entries code Container).
      { unfold idle in Hc. simpl.
        destruct (Scanf1 c running_pattern); [rewrite Hc|]; reflexivity. }
      rewrite Hskip.
      destruct IH as [[Hall Hres] | (before & k' & c' & after & -> & Hb & Hc' & Hres)].
      * left. split; [constructor; assumption|exact Hres].
      * right. exists ((k, c) :: before), k', c', after.
        repeat split; [constructor; assumption|exact Hc'|exact Hres].
Qed.

(** a key that [StartBurst] returns is the key of an idle record *)
Lemma StartBurst_result (entries : list (string * string)) (code : string)
    (Container : gmap string string) (k : string) (Container1 : gmap string string) :
  StartBurst entries code Container = (k, Container1) → k ≠ "" →
  (∃ c, (k, c) ∈ entries ∧ idle c = true)
  ∧ Container1 = <[k := running_record k code]> Container.
Proof.
  induction entries as [|[k' c] entries IH]; intros Hres Hk.
  - injection Hres as <- _. contradiction.
  - destruct (idle c) eqn:Hc.
    + rewrite (StartBurst_head _ _ _ _ _ Hc) in Hres. injection Hres as -> <-.
      split; [|reflexivity]. exists c. split; [apply list_elem_of_here|exact Hc].
    + unfold idle in Hc. simpl in Hres.
      destruct (Scanf1 c running_pattern); [rewrite Hc in Hres|];
        destruct (IH Hres Hk) as [(c' & Hin & Hc') ->];
        (split; [exists c'; split; [apply list_elem_of_further, Hin|exact Hc']
                |reflexivity]).
Qed.

(** X20: a container that [StartBurst] has taken is not given out again:
    as long as its running sentence does not read as idle, no later
    [StartBurst] on the new table returns its key, in whatever order the
    range goes. *)
Theorem StartBurst_not_twice (entries entries' : list (string * string))
    (code code' k : string) (Container Container1 : gmap string string)
    (Htaken : StartBurst entries code Container = (k, Container1))
    (Hkey : k ≠ "")
    (Hrunning : idle (running_record k code) = false)
    (Hrange : range_of Container1 entries') :
  (StartBurst entries' code' Container1).1 ≠ k.
Proof.
  destruct (StartBurst_result _ _ _ _ _ Htaken Hkey) as [_ ->].
  destruct (StartBurst entries' code' _) as [k2 Container2] eqn:Hsecond.
  simpl. intros ->.
  destruct (StartBurst_result _ _ _ _ _ Hsecond Hkey) as [(c & Hin & Hc) _].
  unfold range_of in Hrange. rewrite Hrange in Hin.
  apply elem_of_map_to_list in Hin. rewrite lookup_insert_eq in Hin.
  injection Hin as <-. congruence.
Qed.

(** X21: [GetBurst] resets the slot that the record names, not the slot
    it was asked for.  When the finished record under [key] names another
    container, that container's slot gets the idle sentence, the record
    under [key] stays, and the same result is returned again by the next
    [GetBurst] of [key]. *)
Theorem GetBurst_resets_named_slot (Container : gmap string string)
    (key content named r : string)
    (Hrecord : Container !! key = Some content)
    (Hfinished : finished content = Some (named, r))
    (Hother : named ≠ key) :
  GetBurst key Container = (r, <[named := idle_record named]> Container)
  ∧ (GetBurst key Container).2 !! key = Some content
  ∧ (GetBurst key (GetBurst key Container).2).1 = r.
Proof.
  assert (Hfirst : GetBurst key Container
                   = (r, <[named := idle_record named]> Container)).
  { unfold GetBurst, finished in *. rewrite Hrecord.
    destruct (Scanf1 _ _) as [vals|]; [|discriminate].
    injection Hfinished as -> ->. reflexivity. }
  rewrite Hfirst. simpl.
  assert (Hstill : <[named := idle_record named]> Container !! key = Some content)
    by (rewrite lookup_insert_ne by exact Hother; exact Hrecord).
  split; [reflexivity|]. split; [exact Hstill|].
  unfold GetBurst, finished in *. rewrite Hstill.
  destruct (Scanf1 _ _) as [vals|]; [|discriminate].
  injection Hfinished as _ ->. reflexivity.
Qed.

End BurstFacts.

End burst_facts.

(** ** Key generation *)

Module drawing_facts.

Import drawing.

Lemma letters_in_A_T : Forall in_A_T letters.
Proof.
  unfold letters. simpl.
  repeat constructor; unfold in_A_T; split; apply Nat.leb_le; reflexivity.
Qed.

Lemma draw_in_letters (e : entropy) (k : nat) : draw e k ∈ letters.
Proof.
  unfold draw.
  set (x := Z.lxor _ _).
  assert (Hlt : (Z.to_nat (x mod Z.of_nat (length letters)) < length letters)%nat).
  { assert (0 <= x mod Z.of_nat (length letters) < Z.of_nat (length letters))%Z
      by (apply Z.mod_pos_bound; simpl; lia).
    lia. }
  apply list_elem_of_In, nth_In, Hlt.
Qed.

Lemma draw_in_A_T (e : entropy) (k : nat) : in_A_T (draw e k).
Proof.
  pose proof letters_in_A_T as HF.
  rewrite Forall_forall in HF. apply HF, draw_in_letters.
Qed.

(** The inner loop overwrites the [n] entries from [i] on with the draws
    from [k] on. *)
Lemma fill_key_spec (e : entropy) (n : nat) :
  ∀ (i k : nat) (key : list ascii),
    (i + n ≤ length key)%nat →
    fill_key e n i k key
    = take i key ++ map (draw e) (seq k n) ++ drop (i + n) key.
Proof.
  induction n as [|n IH]; intros i k key Hlen; simpl.
  - rewrite Nat.add_0_r, take_drop. reflexivity.
  - rewrite IH by (rewrite length_insert; lia).
    replace (S i + n)%nat with (i + S n)%nat by lia.
    rewrite drop_insert_lt by lia.
    rewrite (take_S_r _ i (draw e k)) by (apply list_lookup_insert_eq; lia).
    rewrite take_insert_ge by lia.
    rewrite <- app_assoc. reflexivity.
Qed.

Lemma fill_key_all (e : entropy) (k : nat) (key : list ascii) :
  length key = 64%nat → fill_key e 64 0 k key = map (draw e) (seq k 64).
Proof.
  intros Hlen. rewrite fill_key_spec by lia.
  rewrite take_0, drop_ge by lia. rewrite app_nil_r. reflexivity.
Qed.

(** After at least one turn of the outer loop the key is 64 draws. *)
Lemma rounds_draws (e : entropy) (n : nat) :
  ∀ (k : nat) (key : list ascii),
    length key = 64%nat →
    ∃ k', rounds e (S n) k key = map (draw e) (seq k' 64).
Proof.
  induction n as [|n IH]; intros k key Hlen.
  - exists k. cbn [rounds]. rewrite fill_key_all by assumption.
    destruct (Ascii.eqb _ _); reflexivity.
  - change (rounds e (S (S n)) k key)
      with (let key' := fill_key e 64 0 k key in
            if Ascii.eqb (nth 3 key' zero) "A" then key'
            else rounds e (S n) (k + 64) key').
    cbv zeta. rewrite fill_key_all by assumption.
    destruct (Ascii.eqb _ _).
    + exists k. reflexivity.
    + apply IH. rewrite length_map, length_seq. reflexivity.
Qed.

Lemma get_string_of_list (l : list ascii) :
  ∀ i, String.get i (string_of_list_ascii l) = l !! i.
Proof.
  induction l as [|c l IH]; intros [|i]; simpl; auto.
Qed.

Lemma length_string_of_list (l : list ascii) :
  String.length (string_of_list_ascii l) = length l.
Proof. induction l; simpl; auto. Qed.

(** C10: every key [GenerateUniqueKey] returns has length 64, has only
    characters from 'A' to 'T', and has 'B' at index 4, whatever the
    random sources give. *)
Theorem GenerateUniqueKey_shape (e : entropy) :
  String.length (GenerateUniqueKey e) = 64%nat
  ∧ (∀ i c, String.get i (GenerateUniqueKey e) = Some c → in_A_T c)
  ∧ String.get 4 (GenerateUniqueKey e) = Some "B"%char.
Proof.
  unfold GenerateUniqueKey.
  destruct (rounds_draws e 999 0 (replicate 64 zero)) as [k' Hk'].
  { apply length_replicate. }
  rewrite Hk'. clear Hk'.
  set (key := map (draw e) (seq k' 64)).
  assert (Hlen : length key = 64%nat)
    by (unfold key; rewrite length_map, length_seq; reflexivity).
  split; [|split].
  - rewrite length_string_of_list, length_insert. exact Hlen.
  - intros i c. rewrite get_string_of_list.
    destruct (decide (i = 4%nat)) as [->|Hne].
    + rewrite list_lookup_insert_eq by lia.
      intros [= <-]. unfold in_A_T. split; apply Nat.leb_le; reflexivity.
    + rewrite list_lookup_insert_ne by congruence.
      unfold key. rewrite list_lookup_fmap.
      destruct (seq k' 64 !! i) as [j|]; simpl; [|discriminate].
      intros [= <-]. apply draw_in_A_T.
  - rewrite get_string_of_list. apply list_lookup_insert_eq. lia.
Qed.

(** *** The random source and the rounds of the key *)

Lemma Random_table :
  forallb (λ n, Z.eqb (Random (Some (Z.of_nat n))) (Z.of_nat n * 16843009))
    (seq 0 256) = true.
Proof. vm_compute. reflexivity. Qed.

(** X25: [Random] has eight bits of entropy.  Its value is the first
    byte read, repeated in each of the four bytes of the result, so it is
    one of 256 numbers; it is 0 when the read fails. *)
Theorem Random_one_byte (b0 : Z) :
  Random (Some b0) = ((b0 mod 256) * 16843009)%Z
  ∧ (0 <= Random (Some b0) < 2 ^ 32)%Z
  ∧ Random None = 0%Z.
Proof.
  assert (Hb : (0 <= b0 mod 256 < 256)%Z) by (apply Z.mod_pos_bound; lia).
  assert (Hval : Random (Some b0) = ((b0 mod 256) * 16843009)%Z).
  { assert (Hsame : Random (Some b0) = Random (Some (b0 mod 256)%Z))
      by (unfold Random; rewrite Zmod_mod; reflexivity).
    rewrite Hsame.
    pose proof Random_table as Htable.
    rewrite forallb_forall in Htable.
    specialize (Htable (Z.to_nat (b0 mod 256))).
    rewrite Z2Nat.id in Htable by lia.
    apply Z.eqb_eq, Htable, in_seq. lia. }
  split; [exact Hval|]. split; [|reflexivity].
  rewrite Hval. change (2 ^ 32)%Z with 4294967296%Z. lia.
Qed.

Lemma nth_draws (e : entropy) (k i : nat) :
  (i < 64)%nat →
  nth i (map (draw e) (seq k 64)) zero = draw e (k + i).
Proof.
  intros Hi.
  rewrite (nth_indep _ zero (draw e 0)) by (rewrite length_map, length_seq; exact Hi).
  rewrite map_nth. f_equal. apply seq_nth, Hi.
Qed.

(** which round the outer loop ends with *)
Lemma rounds_round (e : entropy) (n : nat) :
  ∀ (k : nat) (key : list ascii),
    length key = 64%nat →
    ∃ j, (j ≤ n)%nat
         ∧ (∀ j', (j' < j)%nat → draw e (k + 64 * j' + 3) ≠ "A"%char)
         ∧ (j = n ∨ draw e (k + 64 * j + 3) = "A"%char)
         ∧ rounds e (S n) k key = map (draw e) (seq (k + 64 * j) 64).
Proof.
  induction n as [|n IH]; intros k key Hlen.
  - exists 0%nat. split; [lia|]. split; [intros j' Hj'; lia|].
    split; [left; reflexivity|].
    cbn [rounds]. rewrite fill_key_all by assumption.
    rewrite Nat.mul_0_r, Nat.add_0_r.
    destruct (Ascii.eqb _ _); reflexivity.
  - change (rounds e (S (S n)) k key)
      with (let key' := fill_key e 64 0 k key in
            if Ascii.eqb (nth 3 key' zero) "A" then key'
            else rounds e (S n) (k + 64) key').
    cbv zeta. rewrite fill_key_all by assumption.
    rewrite nth_draws by lia.
    destruct (Ascii.eqb (draw e (k + 3)) "A") eqn:HA.
    + exists 0%nat. split; [lia|]. split; [intros j' Hj'; lia|].
      rewrite Nat.mul_0_r, Nat.add_0_r. split; [|reflexivity].
      right. apply Ascii.eqb_eq, HA.
    + destruct (IH (k + 64)%nat (map (draw e) (seq k 64)))
        as (j & Hj & Hbefore & Hlast & Hrounds).
      { rewrite length_map, length_seq. reflexivity. }
      exists (S j). split; [lia|]. split; [|split].
      * intros [|j'] Hj'.
        -- rewrite Nat.mul_0_r, Nat.add_0_r. apply Ascii.eqb_neq, HA.
        -- replace (k + 64 * S j' + 3)%nat with (k + 64 + 64 * j' + 3)%nat by lia.
           apply Hbefore. lia.
      * destruct Hlast as [->|Hlast]; [left; reflexivity|right].
        replace (k + 64 * S j + 3)%nat with (k + 64 + 64 * j + 3)%nat by lia.
        exact Hlast.
      * rewrite Hrounds. f_equal. f_equal. lia.
Qed.

(** X26: which draws make the key.  The key is one round of 64
    consecutive draws with 'B' put at index 4: the first of the 1000
    rounds whose letter at index 3 is 'A', or the last round when there
    is none. *)
Theorem GenerateUniqueKey_round (e : entropy) :
  ∃ j, (j < 1000)%nat
       ∧ (∀ j', (j' < j)%nat → draw e (64 * j' + 3) ≠ "A"%char)
       ∧ (j = 999%nat ∨ draw e (64 * j + 3) = "A"%char)
       ∧ ∀ i, (i < 64)%nat →
              String.get i (GenerateUniqueKey e)
              = Some (if Nat.eqb i 4 then "B"%char else draw e (64 * j + i)).
Proof.
  destruct (rounds_round e 999 0 (replicate 64 zero))
    as (j & Hj & Hbefore & Hlast & Hrounds).
  { apply length_replicate. }
  exists j. split; [lia|]. split; [exact Hbefore|]. split; [exact Hlast|].
  intros i Hi. unfold GenerateUniqueKey. rewrite Hrounds.
  rewrite get_string_of_list.
  destruct (Nat.eqb_spec i 4) as [->|Hne].
  - apply list_lookup_insert_eq. rewrite length_map, length_seq. lia.
  - rewrite list_lookup_insert_ne by congruence.
    rewrite list_lookup_fmap, lookup_seq_lt by exact Hi. reflexivity.
Qed.

(** X27: [RedactPublicKey] does not panic on a generated key: it returns
    its first six letters, of which the one at index 4 is 'B'. *)
Theorem RedactPublicKey_of_generated (e : entropy) :
  ∃ s, keys.RedactPublicKey (GenerateUniqueKey e) = Some s
       ∧ String.length s = 6%nat
       ∧ String.get 4 s = Some "B"%char
       ∧ String.prefix s (GenerateUniqueKey e) = true.
Proof.
  unfold keys.RedactPublicKey, GenerateUniqueKey.
  destruct (rounds_draws e 999 0 (replicate 64 zero)) as [k' Hk'].
  { apply length_replicate. }
  rewrite Hk'. clear Hk'.
  remember (map (draw e) (seq k' 64)) as key eqn:Hkey.
  assert (Hshape : ∃ c0 c1 c2 c3 c4 c5 rest,
            key = c0 :: c1 :: c2 :: c3 :: c4 :: c5 :: rest
            ∧ length rest = 58%nat).
  { assert (Hlen : length key = 64%nat)
      by (rewrite Hkey, length_map, length_seq; reflexivity).
    clear Hkey.
    do 6 (destruct key as [|? key]; [discriminate Hlen|]).
    eexists _, _, _, _, _, _, key. split; [reflexivity|].
    simpl in Hlen. lia. }
  destruct Hshape as (c0 & c1 & c2 & c3 & c4 & c5 & rest & -> & Hrest).
  rewrite length_string_of_list, length_insert. simpl length.
  rewrite Hrest. simpl.
  eexists. split; [reflexivity|]. split; [reflexivity|].
  split; [reflexivity|].
  repeat (destruct (Ascii.ascii_dec _ _) as [_|Hne]; [|congruence]).
  destruct (string_of_list_ascii rest); reflexivity.
Qed.

End drawing_facts.

(** ** Burst: sessions, workers and the UDP client *)

Module workers_facts.

Import burst workers.

Section WorkersFacts.

Context {E : Englang}.
Variable MaxBurstRuntime : Z.
Variable ValidatedCoinContent : Request → string.
Variable Http11Port : string.
Variable ValidPeriod : Z.
Variable ActivationKey : string.
Variable DecimalString : Z → string.

Lemma neqb_empty (s : string) : s ≠ "" → String.eqb s "" = false.
Proof. intros H. apply String.eqb_neq, H. Qed.

(** X10: a PUT on [/run.coin] with a valid coin answers with the coin and
    enters a session under it; from then on a GET on [/run.coin] with
    that key returns the stored session sentence, and [/run] with that key
    is not answered 402 but goes on to the task channel. *)
Theorem coin_opens_run (until : string) (BurstSession : gmap string string)
    (put : Request)
    (Hput : Method put = "PUT")
    (Hcoin : ValidatedCoinContent put ≠ "") :
  body_of
    (answers (coin_handler ValidatedCoinContent Http11Port ValidPeriod until
                BurstSession put).2)
    = ValidatedCoinContent put
  ∧ status_of
      (answers (coin_handler ValidatedCoinContent Http11Port ValidPeriod until
                  BurstSession put).2)
    = None
  ∧ (∀ until' get,
       Method get = "GET" →
       Query_Get get "apikey" = ValidatedCoinContent put →
       body_of
         (answers
            (coin_handler ValidatedCoinContent Http11Port ValidPeriod until'
               (coin_handler ValidatedCoinContent Http11Port ValidPeriod until
                  BurstSession put).1
               get).2)
       = Printf (session_sentence Http11Port (ValidatedCoinContent put)
                   (ValidatedCoinContent put) until) [])
  ∧ (∀ run p,
       Query_Get run "apikey" = ValidatedCoinContent put →
       status_of
         (run_handler MaxBurstRuntime
            (coin_handler ValidatedCoinContent Http11Port ValidPeriod until
               BurstSession put).1
            run p).1
       = None
       ∧ channel_ops
           (run_handler MaxBurstRuntime
              (coin_handler ValidatedCoinContent Http11Port ValidPeriod until
                 BurstSession put).1
              run p).1
         ≠ []).
Proof.
  unfold coin_handler at 1 2. rewrite Hput, (neqb_empty _ Hcoin). simpl.
  split; [apply strings_facts.app_empty_r|]. split; [reflexivity|]. split.
  - intros until' get Hget Hkey. unfold coin_handler.
    rewrite Hput, (neqb_empty _ Hcoin), Hget. simpl.
    rewrite Hkey, lookup_insert_eq. simpl. apply strings_facts.app_empty_r.
  - intros run p Hkey. unfold coin_handler, run_handler.
    rewrite Hput, (neqb_empty _ Hcoin). simpl.
    rewrite Hkey, lookup_insert_eq.
    destruct (select_wait _ (takes_code p)) as [sent w1].
    destruct (select_wait _ (if sent then _ else _)) as [given w2].
    destruct (select_wait _ _) as [got w3].
    split.
    + simpl. destruct (if got then _ else _) as [o|]; simpl; [|reflexivity].
      unfold copy_out. destruct (String.eqb o ""); reflexivity.
    + simpl. discriminate.
Qed.

(** X11: no request to [/run.coin] removes or changes a session of
    another key: the table differs at most at the coin of the request,
    and every key that had a session still has one. *)
Theorem coin_handler_keeps_sessions (until : string)
    (BurstSession : gmap string string) (r : Request) (key : string) :
  (key ≠ ValidatedCoinContent r →
   (coin_handler ValidatedCoinContent Http11Port ValidPeriod until
      BurstSession r).1 !! key
   = BurstSession !! key)
  ∧ (is_Some (BurstSession !! key) →
     is_Some ((coin_handler ValidatedCoinContent Http11Port ValidPeriod until
                 BurstSession r).1 !! key)).
Proof.
  unfold coin_handler.
  destruct (String.eqb (Method r) "PUT").
  - destruct (negb (String.eqb (ValidatedCoinContent r) "")); simpl;
      [|auto].
    split.
    + intros Hne. apply lookup_insert_ne. congruence.
    + intros Hsome. destruct (decide (ValidatedCoinContent r = key)) as [->|Hne].
      * rewrite lookup_insert_eq. eauto.
      * rewrite lookup_insert_ne by exact Hne. exact Hsome.
  - destruct (String.eqb (Method r) "GET"); [|simpl; auto].
    destruct (BurstSession !! Query_Get r "apikey"); simpl; auto.
Qed.



(** X22: a worker's way through [/idle].  The GET with the activation
    key answers with a fresh key and stores the registered sentence under
    the activation key; once the goroutine has written the ready sentence
    under the fresh key, a GET with that key that meets a call in time
    answers with the task, deletes the worker record and keeps the call
    channel as pending result; the PUT with that key then posts the
    result on that channel and deletes the pending result.  No entry for
    the worker's key is left in either table. *)
Theorem worker_lifecycle (e e2 e3 : drawing.entropy) (s0 s1 s2 s3 : Z)
    (d : dispatcher) (register poll post : Request) (p0 p p3 : caller)
    (idle task : string) (t : Z) (call : nat) (vals : list string)
    (Hidle : idle = drawing.GenerateUniqueKey e)
    (Hfresh : idle ≠ ActivationKey)
    (Hregister : Method register = "GET"
                 ∧ Query_Get register "apikey" = ActivationKey)
    (Hpoll : Method poll = "GET" ∧ Query_Get poll "apikey" = idle)
    (Hpost : Method post = "PUT" ∧ Query_Get post "apikey" = idle)
    (Hready : Scanf1 (ready_sentence DecimalString idle s1) ready_pattern
              = Some vals)
    (Hcall : call_arrives p = Some (t, call))
    (Hintime : (0 <= t < MaxBurstRuntime)%Z)
    (Hinput : input_arrives p = Some task) :
  ∃ d1 d3 d4 acts3 delivered w,
    idle_handler MaxBurstRuntime ActivationKey DecimalString e s0 d register p0
      = Some (d1, map Reply (copy_out idle) ++ [Go (Warm idle)], 0%Z)
    ∧ ContainerRunning d1 !! ActivationKey
      = Some (registered_sentence DecimalString idle s0)
    ∧ idle_handler MaxBurstRuntime ActivationKey DecimalString e2 s2
        (warm DecimalString idle s1 d1) poll p
      = Some (d3, acts3, t)
    ∧ body_of (replies acts3) = task
    ∧ ContainerRunning d3 !! idle = None
    ∧ ContainerResults d3 !! idle = Some call
    ∧ idle_handler MaxBurstRuntime ActivationKey DecimalString e3 s3 d3 post p3
      = Some (d4, [PostResult call (Body post) delivered], w)
    ∧ ContainerRunning d4 !! idle = None
    ∧ ContainerResults d4 !! idle = None.
Proof.
  destruct Hregister as [Hm0 Hk0], Hpoll as [Hm2 Hk2], Hpost as [Hm3 Hk3].
  assert (Hne : String.eqb idle ActivationKey = false)
    by (apply String.eqb_neq, Hfresh).
  destruct (select_wait (10 * Millisecond) (result_taken p3)) as [sent w] eqn:Hw.
  unfold idle_handler at 1. rewrite Hm0, Hk0.
  change (String.eqb "GET" "GET") with true. cbv iota.
  rewrite String.eqb_refl, <- Hidle.
  eexists _, _, _, _, _, _. split; [reflexivity|].
  split; [apply lookup_insert_eq|].
  unfold idle_handler at 1. rewrite Hm2, Hk2, Hne.
  change (String.eqb "GET" "GET") with true. cbv iota.
  unfold warm at 1. cbn [ContainerRunning ContainerResults firstRun].
  rewrite lookup_insert_eq, Hready, Hcall.
  change (fst <$> Some (t, call)) with (Some t).
  rewrite (burst_facts.select_wait_ready _ _ Hintime).
  change (snd <$> Some (t, call)) with (Some call). cbv iota.
  rewrite Hinput.
  split; [reflexivity|].
  split.
  { unfold replies. rewrite omap_app. simpl omap at 1. rewrite app_nil_l.
    clear. unfold copy_out. destruct (String.eqb task "") eqn:Ht.
    - apply String.eqb_eq in Ht. subst. reflexivity.
    - simpl. apply strings_facts.app_empty_r. }
  cbn [ContainerRunning ContainerResults firstRun].
  split; [apply lookup_delete_eq|].
  split; [apply lookup_insert_eq|].
  unfold idle_handler. rewrite Hm3, Hk3.
  change (String.eqb "PUT" "GET") with false.
  change (String.eqb "PUT" "PUT") with true. cbv iota.
  cbn [ContainerRunning ContainerResults firstRun].
  rewrite lookup_insert_eq, Hw.
  split; [reflexivity|]. cbn [ContainerRunning ContainerResults firstRun].
  split; [apply lookup_delete_eq|apply lookup_delete_eq].
Qed.

(** *** The lambda endpoint and a worker that finishes late *)

Lemma GetBurst_running (k record : string) (Container : gmap string string) :
  Container !! k = Some record → finished record = None →
  GetBurst k Container = ("", Container).
Proof.
  intros Hrecord Hrunning. unfold GetBurst, finished in *. rewrite Hrecord.
  destruct (Scanf1 _ _); [discriminate|reflexivity].
Qed.

Lemma GetBurst_done (k fin r : string) (Container : gmap string string) :
  finished fin = Some (k, r) →
  GetBurst k (<[k := fin]> Container)
  = (r, <[k := idle_record k]> (<[k := fin]> Container)).
Proof.
  intros Hfin. unfold GetBurst, finished in *. rewrite lookup_insert_eq.
  destruct (Scanf1 _ _) as [vals|]; [|discriminate].
  injection Hfin as -> ->. reflexivity.
Qed.

Lemma finishes_at_other (j : nat) (k fin : string)
    (Container : gmap string string) (i : nat) :
  i ≠ j → finishes_at j k fin i Container = Container.
Proof.
  intros Hne. unfold finishes_at.
  destruct (Nat.eqb_spec i j); [contradiction|reflexivity].
Qed.

Lemma finishes_at_same (j : nat) (k fin : string)
    (Container : gmap string string) :
  finishes_at j k fin j Container = <[k := fin]> Container.
Proof. unfold finishes_at. rewrite Nat.eqb_refl. reflexivity. Qed.

(** the polls that end before sleep [j] find nothing *)
Lemma poll_before (j : nat) (k record fin : string)
    (Container : gmap string string) (n : nat) :
  Container !! k = Some record → finished record = None →
  ∀ i, (i + n ≤ j)%nat →
       poll n i (finishes_at j k fin) k Container = ((k, ""), Container).
Proof.
  intros Hrecord Hrunning.
  induction n as [|n IH]; intros i Hi; [reflexivity|].
  cbn [poll]. rewrite (GetBurst_running _ _ _ Hrecord Hrunning). simpl.
  rewrite finishes_at_other by lia. apply IH. lia.
Qed.

(** the polls whose last sleep is sleep [j] find nothing, and leave the
    finished record in the table *)
Lemma poll_last (j : nat) (k record fin : string)
    (Container : gmap string string) (n : nat) :
  Container !! k = Some record → finished record = None →
  ∀ i, (j = i + n)%nat →
       poll (S n) i (finishes_at j k fin) k Container
       = ((k, ""), <[k := fin]> Container).
Proof.
  intros Hrecord Hrunning.
  induction n as [|n IH]; intros i Hi;
    cbn [poll]; rewrite (GetBurst_running _ _ _ Hrecord Hrunning);
    cbn [negb String.eqb].
  - assert (i = j) as -> by lia. rewrite finishes_at_same. reflexivity.
  - rewrite finishes_at_other by lia. apply IH. lia.
Qed.

(** the polls that go on after sleep [j] return the result *)
Lemma poll_hits (j : nat) (k record fin r : string)
    (Container : gmap string string) (n : nat) :
  Container !! k = Some record → finished record = None →
  finished fin = Some (k, r) → r ≠ "" →
  ∀ i, (i ≤ j)%nat → (j + 2 ≤ i + n)%nat →
       poll n i (finishes_at j k fin) k Container
       = ((k, r), <[k := idle_record k]> (<[k := fin]> Container)).
Proof.
  intros Hrecord Hrunning Hfin Hr.
  induction n as [|n IH]; intros i Hij Hn; [lia|].
  cbn [poll]. rewrite (GetBurst_running _ _ _ Hrecord Hrunning). simpl.
  destruct (decide (i = j)) as [->|Hne].
  - rewrite finishes_at_same. destruct n as [|n]; [lia|].
    cbn [poll]. rewrite (GetBurst_done _ _ _ _ Hfin).
    apply String.eqb_neq in Hr. rewrite Hr. reflexivity.
  - rewrite finishes_at_other by exact Hne. apply IH; lia.
Qed.

(** X23: the handler that calls [RunBurst] against a worker that finishes
    late.  [StartBurst] has taken container [k] for the body of the
    request; if the finished record with a result [r] appears during any
    of the fifteen sleeps of [RunBurst] or during the sleep of three
    seconds, the caller gets [r] and the slot is idle again; if it appears
    later, the body is empty and the container stays taken. *)
Theorem lambda_returns_late_result (entries : list (string * string))
    (Container Container1 : gmap string string) (req : Request)
    (k fin r : string) (j : nat)
    (Htaken : StartBurst entries (Body req) Container = (k, Container1))
    (Hkey : k ≠ "")
    (Hrunning : finished (running_record k (Body req)) = None)
    (Hfin : finished fin = Some (k, r))
    (Hr : r ≠ "") :
  ((j ≤ 15)%nat →
   body_of (lambda_handler entries (finishes_at j k fin) Container req).1 = r
   ∧ (lambda_handler entries (finishes_at j k fin) Container req).2
     = <[k := idle_record k]> (<[k := fin]> Container1))
  ∧ ((15 < j)%nat →
     body_of (lambda_handler entries (finishes_at j k fin) Container req).1 = ""
     ∧ (lambda_handler entries (finishes_at j k fin) Container req).2
       = Container1).
Proof.
  destruct (burst_facts.StartBurst_result _ _ _ _ _ Htaken Hkey) as [_ HC1].
  assert (Hrec : Container1 !! k = Some (running_record k (Body req)))
    by (rewrite HC1; apply lookup_insert_eq).
  assert (Hk : String.eqb k "" = false) by (apply String.eqb_neq, Hkey).
  assert (Hrb : String.eqb r "" = false) by (apply String.eqb_neq, Hr).
  unfold lambda_handler, RunBurst. rewrite Htaken, Hk.
  split; intros Hj.
  - destruct (decide (j ≤ 13)%nat) as [H13|H13].
    + rewrite (poll_hits j k _ fin r Container1 15 Hrec Hrunning Hfin Hr) by lia.
      rewrite Hk, Hrb. cbn [negb andb fst snd].
      split; [apply burst_facts.body_of_copy_out|reflexivity].
    + destruct (decide (j = 14%nat)) as [->|H14].
      * rewrite (poll_last 14 k _ fin Container1 14 Hrec Hrunning) by lia.
        rewrite Hk. cbn [negb andb String.eqb].
        rewrite finishes_at_other by lia.
        rewrite (GetBurst_done k fin r Container1 Hfin). cbn [fst snd body_of].
        split; [apply burst_facts.body_of_copy_out|reflexivity].
      * assert (j = 15%nat) as -> by lia.
        rewrite (poll_before 15 k _ fin Container1 15 Hrec Hrunning) by lia.
        rewrite Hk. cbn [negb andb String.eqb]. rewrite finishes_at_same.
        rewrite (GetBurst_done k fin r Container1 Hfin). cbn [fst snd body_of].
        split; [apply burst_facts.body_of_copy_out|reflexivity].
  - rewrite (poll_before j k _ fin Container1 15 Hrec Hrunning) by lia.
    rewrite Hk. cbn [negb andb String.eqb].
    rewrite (finishes_at_other j k fin Container1) by lia.
    rewrite (GetBurst_running k _ Container1 Hrec Hrunning).
    split; reflexivity.
Qed.

(** *** The UDP client *)

Lemma await_reply_replied (reads : list (option string)) :
  ∀ buffer reply,
    await_reply buffer reads = Replied reply →
    IsMessageComplete reply = true
    ∧ ∃ n, (0 < n ≤ length reads)%nat
           ∧ Forall is_Some (take n reads)
           ∧ reply = buffer +:+ heard (take n reads).
Proof.
  induction reads as [|[datagram|] reads IH]; intros buffer reply H;
    cbn [await_reply] in H; try discriminate.
  destruct (IsMessageComplete (buffer +:+ strings.take 1024 datagram)) eqn:Hc.
  - injection H as <-. split; [exact Hc|].
    exists 1%nat. cbn [length take]. split; [lia|]. split.
    + rewrite take_0. repeat constructor. eauto.
    + rewrite take_0. unfold heard. cbn [foldr from_option].
      rewrite strings_facts.app_empty_r. reflexivity.
  - destruct (IH _ _ H) as (Hcomplete & n & Hn & Hall & Hreply).
    split; [exact Hcomplete|].
    exists (S n). cbn [length take]. split; [lia|]. split.
    + constructor; [eauto|exact Hall].
    + rewrite Hreply, <- strings_facts.app_assoc. reflexivity.
Qed.

(** X24: [SendMessage] returns a reply only when the address was
    resolved, the connection was made and the message was written, and
    the reply it returns is then a complete message: the bytes of the
    first datagrams read, each cut to 1024 bytes, in the order of arrival,
    none of them lost to a read error.  A partial reply is never
    returned. *)
Theorem SendMessage_reply_is_complete (resolved dialed written : bool)
    (reads : list (option string)) (reply : string)
    (Hreplied : SendMessage resolved dialed written reads = Replied reply) :
  resolved = true ∧ dialed = true ∧ written = true
  ∧ IsMessageComplete reply = true
  ∧ ∃ n, (0 < n ≤ length reads)%nat
         ∧ Forall is_Some (take n reads)
         ∧ reply = heard (take n reads).
Proof.
  unfold SendMessage in Hreplied.
  destruct resolved, dialed, written; simpl in Hreplied; try discriminate.
  destruct (await_reply_replied _ _ _ Hreplied) as (Hc & n & Hn & Hall & Hr).
  repeat split; try assumption. exists n. repeat split; try assumption; lia.
Qed.

End WorkersFacts.

End workers_facts.

(** ** Activation *)

Module activation_facts.

Import activation.

Section ActivationFacts.

Variable ActivationKey : string.
Variable SiteUrl : string.

(** X28: only the activation key activates.  When the site has no
    activation key left, or the [activationkey] of the request is not the
    activation key of the site, also when it is empty, the handler of
    [/activate] returns, leaves the index as it is, tells package
    management no key and writes no body. *)
Theorem activate_needs_the_key (Index : gmap string string) (r : Request)
    (reply : option string)
    (Hwrong : ActivationKey = "" ∨ Query_Get r "activationkey" ≠ ActivationKey) :
  ∃ t, activate_handler ActivationKey SiteUrl Index r reply = Some (Index, t)
       ∧ ¬ updates_admin_key t
       ∧ body_of (responses t) = ""
       ∧ (ActivationKey ≠ "" →
          status_of (responses t) = Some StatusUnauthorized).
Proof.
  unfold activate_handler.
  destruct (String.eqb ActivationKey "") eqn:Hnone.
  - eexists. split; [reflexivity|].
    apply String.eqb_eq in Hnone.
    repeat split; [|contradiction].
    intros [key Hin]. rewrite elem_of_cons, elem_of_nil in Hin.
    destruct Hin as [Hin|[]]. discriminate Hin.
  - destruct Hwrong as [->|Hwrong]; [discriminate Hnone|].
    apply String.eqb_neq in Hwrong. rewrite Hwrong.
    eexists. split; [reflexivity|].
    repeat split.
    intros [key Hin]. rewrite !elem_of_cons, elem_of_nil in Hin.
    destruct Hin as [Hin|[Hin|[]]]; discriminate Hin.
Qed.

(** X29: with the activation key, and somebody on the other side of the
    channel, the handler enters the candidate of the request under the
    activation key in the index of package mesh, tells it to package
    management, and answers with the management URL of the key that came
    back on the channel, which need not be the candidate. *)
Theorem activate_with_the_key (Index : gmap string string) (r : Request)
    (adminKey : string)
    (Hsite : ActivationKey ≠ "")
    (Hkey : Query_Get r "activationkey" = ActivationKey) :
  ∃ t, activate_handler ActivationKey SiteUrl Index r (Some adminKey)
       = Some (<[ActivationKey := Query_Get r "apikey"]> Index, t)
       ∧ UpdateAdminKey (Query_Get r "apikey") ∈ t
       ∧ body_of (responses t) = management_url SiteUrl adminKey
       ∧ status_of (responses t) = None.
Proof.
  unfold activate_handler, Activate.
  apply String.eqb_neq in Hsite. rewrite Hsite, Hkey, String.eqb_refl.
  eexists. split; [reflexivity|]. cbn [app].
  split; [apply list_elem_of_further, list_elem_of_here|].
  split; [apply strings_facts.app_empty_r|reflexivity].
Qed.

End ActivationFacts.

End activation_facts.

(** ** The properties on the example site *)

Module site_facts.

Import site.

(** *** The parser of the examples reads back the idle sentence *)

Lemma find_unfold (lit s : string) :
  englang_model.find lit s
  = if String.prefix lit s
    then Some (EmptyString, strings.drop (String.length lit) s)
    else match s with
         | EmptyString => None
         | String c s' =>
             match englang_model.find lit s' with
             | Some (b, a) => Some (String c b, a)
             | None => None
             end
         end.
Proof. destruct s; reflexivity. Qed.

(** A value without the first character of the literal that follows it
    is read back whole. *)
Lemma find_after_value (c : ascii) (lit value rest : string) :
  strings.free_of c value →
  englang_model.find (String c lit) (value +:+ String c lit +:+ rest)
  = Some (value, rest).
Proof.
  unfold strings.free_of.
  induction value as [|d value IH]; intros Hfree; rewrite find_unfold.
  - rewrite strings_facts.app_empty, strings_facts.prefix_app,
      strings_facts.drop_app. reflexivity.
  - rewrite strings_facts.app_cons.
    assert (Hcd : c ≠ d) by (intros ->; apply Hfree; simpl; left).
    assert (Hvalue : c ∉ list_ascii_of_string value)
      by (intros Hin; apply Hfree; simpl; right; exact Hin).
    simpl String.prefix.
    destruct (Ascii.ascii_dec c d) as [?|_]; [contradiction|].
    rewrite (IH Hvalue). reflexivity.
Qed.

(** For a key without a blank, the idle sentence that [GetBurst] stores
    reads as idle. *)
Lemma idle_record_idle (key : string) :
  strings.free_of " " key →
  burst.idle (E:=E) (burst.idle_record (E:=E) key) = true.
Proof.
  intros Hfree. unfold burst.idle, burst.idle_record. simpl.
  unfold englang_model.Printf, englang_model.Scanf1.
  change (englang_model.pieces burst.running_pattern)
    with ["Burst container has key "; " and it is running "; "."].
  cbn [englang_model.fill].
  rewrite strings_facts.prefix_app, strings_facts.drop_app.
  cbn [englang_model.holes].
  rewrite (find_after_value " " "and it is running " key ("idle" +:+ ".") Hfree).
  reflexivity.
Qed.

(** A payload without the first character of the end sentinel makes a
    complete message. *)
Lemma frame_complete (p : string) :
  strings.free_of "M" p →
  burst.IsMessageComplete (E:=E)
    (burst.message_start +:+ p +:+ burst.message_end) = true.
Proof.
  intros Hfree. unfold burst.IsMessageComplete.
  change (@Scanf1 E) with englang_model.Scanf1.
  unfold englang_model.Scanf1.
  change (englang_model.pieces burst.frame_pattern)
    with [burst.message_start; burst.message_end].
  cbv beta iota.
  rewrite strings_facts.prefix_app, strings_facts.drop_app.
  cbn [englang_model.holes].
  rewrite <- (strings_facts.app_empty_r (p +:+ burst.message_end)),
    <- strings_facts.app_assoc.
  unfold burst.message_end.
  rewrite (find_after_value "M" "essage has finished." p "" Hfree).
  reflexivity.
Qed.

(** *** Proxy *)

Lemma Proxy_unknown_or_gone_witness :
  Synonym (Englang:=E) mesh.eviction_notice mesh.eviction_notice = true
  ∧ (status_of (mesh.Proxy (E:=E) SiteUrl proxy_reply Nodes Index no_key_request).1
       = Some StatusNotFound
     ∧ forwards (mesh.Proxy (E:=E) SiteUrl proxy_reply Nodes Index no_key_request).1 = []
     ∧ (mesh.Proxy (E:=E) SiteUrl proxy_reply Nodes Index no_key_request).2
       = Some "not found")
  ∧ (status_of (mesh.Proxy (E:=E) SiteUrl proxy_reply Nodes Index gone_request).1
       = Some StatusGone
     ∧ forwards (mesh.Proxy (E:=E) SiteUrl proxy_reply Nodes Index gone_request).1 = []
     ∧ (mesh.Proxy (E:=E) SiteUrl proxy_reply Nodes Index gone_request).2
       = Some "not found").
Proof.
  split; [reflexivity|]. split.
  - apply (proj1 (mesh_facts.Proxy_unknown_or_gone (E:=E) SiteUrl proxy_reply
                    Nodes Index no_key_request eq_refl)).
    left. reflexivity.
  - apply (proj2 (mesh_facts.Proxy_unknown_or_gone (E:=E) SiteUrl proxy_reply
                    Nodes Index gone_request eq_refl)).
    exists "KEYB", "127.0.0.1:7782".
    repeat split; try reflexivity; discriminate.
Defined.

Lemma foreign_url_absent : ¬ strings.Contains "/x" SiteUrl.
Proof.
  intros H. apply strings_facts.containsb_spec in H. discriminate H.
Qed.

Lemma Proxy_foreign_url_witness :
  ¬ strings.Contains (URL foreign_request) SiteUrl
  ∧ forwards (mesh.Proxy (E:=E) SiteUrl proxy_reply Nodes Index foreign_request).1 = []
  ∧ status_of (mesh.Proxy (E:=E) SiteUrl proxy_reply Nodes Index foreign_request).1
    = Some StatusNotFound.
Proof.
  split; [exact foreign_url_absent|].
  destruct (mesh_facts.Proxy_foreign_url (E:=E) SiteUrl proxy_reply Nodes Index
              foreign_request foreign_url_absent) as (Hf & Hs & _).
  split; [exact Hf|exact Hs].
Defined.

(** C9 as stated fails where the owner of the key is evicted: the URL
    does not contain the site URL, and the answer is 410, not 404. *)
Lemma Proxy_foreign_url_gone :
  ¬ strings.Contains (URL foreign_gone_request) SiteUrl
  ∧ status_of (mesh.Proxy (E:=E) SiteUrl proxy_reply Nodes Index foreign_gone_request).1
    = Some StatusGone
  ∧ status_of (mesh.Proxy (E:=E) SiteUrl proxy_reply Nodes Index foreign_gone_request).1
    ≠ Some StatusNotFound.
Proof.
  split; [exact foreign_url_absent|]. split; [reflexivity|discriminate].
Qed.

(** *** Registry *)

Lemma node_delete_evicted_witness :
  EnsureAdministrator delete_evicted = Some "ADMIN"
  ∧ Method delete_evicted = "DELETE"
  ∧ Body delete_evicted ≠ ""
  ∧ Nodes !! Body delete_evicted = Some mesh.eviction_notice
  ∧ (mesh.node_handler EnsureAdministrator Nodes delete_evicted).1 = Nodes
  ∧ forwards (mesh.node_handler EnsureAdministrator Nodes delete_evicted).2
    = [ForwardRoundRobinRingRequest delete_evicted].
Proof.
  assert (Ha : EnsureAdministrator delete_evicted = Some "ADMIN") by reflexivity.
  assert (Hm : Method delete_evicted = "DELETE") by reflexivity.
  assert (Hb : Body delete_evicted ≠ "") by discriminate.
  assert (Hn : Nodes !! Body delete_evicted = Some mesh.eviction_notice)
    by reflexivity.
  destruct (mesh_facts.node_delete_evicted EnsureAdministrator Nodes
              delete_evicted "ADMIN" Ha Hm Hb Hn) as (H1 & _ & H3).
  repeat split; assumption.
Defined.

(** C5 as stated fails: the registry entry is already the eviction
    notice, and the request is still forwarded along the ring. *)
Lemma node_delete_evicted_forwards :
  Nodes !! Body delete_evicted = Some mesh.eviction_notice
  ∧ forwards (mesh.node_handler EnsureAdministrator Nodes delete_evicted).2 ≠ [].
Proof. split; [reflexivity|]. vm_compute. discriminate. Qed.

(** *** Index *)

Example UpdateIndex_example :
  map_to_list (mesh.UpdateIndex (E:=E) MeshPattern Index
     ["Api key K1 is served by n1."; "garbage";
      "Api key K2 is served by n2."; "Api key K1 is served by n3."])
  = [("K1", "n3"); ("K2", "n2")].
Proof. vm_compute. reflexivity. Qed.

(** *** The session handler of /run *)

Lemma run_without_session_witness :
  BurstSession !! Query_Get unpaid_request "apikey" = None
  ∧ status_of (burst.run_handler MaxBurstRuntime BurstSession unpaid_request nobody).1
    = Some StatusPaymentRequired
  ∧ channel_ops (burst.run_handler MaxBurstRuntime BurstSession unpaid_request nobody).1
    = [].
Proof.
  assert (Hn : BurstSession !! Query_Get unpaid_request "apikey" = None)
    by reflexivity.
  destruct (burst_facts.run_without_session MaxBurstRuntime BurstSession
              unpaid_request nobody Hn) as (_ & H1 & _ & H3 & _).
  repeat split; assumption.
Defined.

Lemma paid_request_session :
  BurstSession !! Query_Get paid_request "apikey"
  = Some "Burst chain api created from C1.".
Proof. reflexivity. Qed.

Lemma run_no_worker_returns_witness :
  burst.takes_code nobody = None
  ∧ (0 < MaxBurstRuntime < 2 ^ 62)%Z
  ∧ body_of (burst.run_handler MaxBurstRuntime BurstSession paid_request nobody).1 = ""
  ∧ (burst.run_handler MaxBurstRuntime BurstSession paid_request nobody).2
    = (4 * MaxBurstRuntime)%Z.
Proof.
  assert (Hb : (0 < MaxBurstRuntime < 2 ^ 62)%Z) by (vm_compute; split; reflexivity).
  destruct (burst_facts.run_no_worker_returns MaxBurstRuntime BurstSession
              paid_request nobody _ paid_request_session eq_refl Hb)
    as (H1 & _ & H3).
  repeat split; try assumption; apply Hb.
Defined.

(** C1 as stated fails: with a session and no receiver the handler is
    blocked for longer than twice the runtime budget. *)
Lemma run_blocks_past_twice_budget :
  burst.takes_code nobody = None
  ∧ ¬ ((burst.run_handler MaxBurstRuntime BurstSession paid_request nobody).2
       <= 2 * MaxBurstRuntime)%Z.
Proof. split; [reflexivity|]. vm_compute. intros H. apply H. reflexivity. Qed.

Lemma run_busy_empty_body_witness :
  burst.takes_code nobody = None
  ∧ body_of (burst.run_handler MaxBurstRuntime BurstSession paid_request nobody).1 = ""
  ∧ burst.RunBurst (E:=E) [] no_interference "task" ∅
    = ((burst.busy_message, ""), ∅).
Proof.
  destruct (burst_facts.run_busy_empty_body (E:=E) MaxBurstRuntime BurstSession
              paid_request nobody _ paid_request_session eq_refl)
    as (H1 & _ & H3).
  split; [reflexivity|]. split; [exact H1|].
  apply H3. constructor.
Defined.

(** C8 as stated fails: the body the caller gets is empty, it is not the
    busy sentence. *)
Lemma run_body_not_busy_message :
  BurstSession !! Query_Get paid_request "apikey" ≠ None
  ∧ burst.takes_code nobody = None
  ∧ body_of (burst.run_handler MaxBurstRuntime BurstSession paid_request nobody).1
    ≠ burst.busy_message.
Proof. split; [discriminate|]. split; [reflexivity|]. vm_compute. discriminate. Qed.

(** *** Framing *)

Lemma acceptMessage_frame_witness :
  burst.accumulated two_datagrams
    = burst.message_start +:+ "x" +:+ burst.message_end
  ∧ burst.IsMessageComplete (E:=E)
      (burst.message_start +:+ "x" +:+ burst.message_end) = true
  ∧ burst.handled (burst.acceptMessage (E:=E) echo "" two_datagrams).1
    = ["Message has started.xMessage has finished."]
  ∧ (burst.acceptMessage (E:=E) echo "" two_datagrams).2 = "".
Proof.
  assert (Hp : ∀ k, (0 < k ≤ length [("Message has started.x", true)])%nat →
            burst.IsMessageComplete (E:=E)
              (burst.accumulated (take k [("Message has started.x", true)])) = false).
  { intros k Hk. simpl in Hk. assert (k = 1%nat) as -> by lia. reflexivity. }
  destruct (burst_facts.acceptMessage_frame (E:=E) echo
              [("Message has started.x", true)] "Message has finished." true "x"
              Hp eq_refl eq_refl) as (H1 & H2 & _).
  repeat split; assumption.
Defined.

(** C2 as stated fails: the datagrams spell the frame of payload "x", and
    the handler is given the frame, not "x". *)
Lemma acceptMessage_hands_over_frame :
  burst.accumulated two_datagrams
    = burst.message_start +:+ "x" +:+ burst.message_end
  ∧ burst.handled (burst.acceptMessage (E:=E) echo "" two_datagrams).1 ≠ ["x"].
Proof. split; [reflexivity|]. vm_compute. discriminate. Qed.

(** *** Containers *)

Lemma GetBurst_slot_reuse_witness :
  burst.finished (E:=E)
    "Burst container has key K and it is finished with the following result R"
    = Some ("K", "R")
  ∧ burst.idle (E:=E) (burst.idle_record (E:=E) "K") = true
  ∧ burst.GetBurst (E:=E) "K" finished_table
    = ("R", <["K" := burst.idle_record (E:=E) "K"]> finished_table)
  ∧ (∃ entries,
       burst.range_of (<["K" := burst.idle_record (E:=E) "K"]> finished_table) entries
       ∧ burst.StartBurst (E:=E) entries "task"
           (<["K" := burst.idle_record (E:=E) "K"]> finished_table)
         = ("K", <["K" := burst.running_record (E:=E) "K" "task"]> finished_table))
  ∧ burst.GetBurst (E:=E) "K" (<["K" := burst.idle_record (E:=E) "K"]> finished_table)
    = ("", <["K" := burst.idle_record (E:=E) "K"]> finished_table).
Proof.
  destruct (proj1 (burst_facts.GetBurst_slot_reuse (E:=E) finished_table "K")
              _ "R" eq_refl eq_refl eq_refl) as (H1 & H2).
  split; [reflexivity|]. split; [reflexivity|].
  split; [exact H1|]. split; [exact (H2 "task")|].
  apply (proj2 (burst_facts.GetBurst_slot_reuse (E:=E) _ "K")).
  intros content Hc. rewrite lookup_insert_eq in Hc. injection Hc as <-.
  reflexivity.
Defined.

(** *** Keys *)

Example GenerateUniqueKey_example :
  drawing.GenerateUniqueKey poor_entropy
  = "HHHHBHHHHHHHHHHHHHHHHHHHHHHHHHHHHHHHHHHHHHHHHHHHHHHHHHHHHHHHHHHH".
Proof. vm_compute. reflexivity. Qed.


(** *** Further examples: registry and proxy *)

Lemma registry_keeps_tombstones_witness :
  Nodes !! "127.0.0.1:7782" = Some mesh.eviction_notice
  ∧ mesh.serve_nodes EnsureAdministrator Nodes [rejoin_request; join_request]
      !! "127.0.0.1:7782" = Some mesh.eviction_notice.
Proof.
  split; [reflexivity|].
  destruct (mesh_facts.registry_keeps_tombstones EnsureAdministrator Nodes
              [rejoin_request; join_request] "127.0.0.1:7782" _ eq_refl)
    as (status' & Hlook & Hev).
  rewrite Hlook. f_equal. apply Hev. reflexivity.
Defined.

Lemma join_propagation_witness :
  go_index Nodes (Body join_request) = ""
  ∧ (NewRoundRobinCall "127.0.0.1:7781/node?apikey=ADMIN" "PUT" "127.0.0.1:7783"
       ∈ (mesh.node_handler EnsureAdministrator Nodes join_request).2)
  ∧ (NewRoundRobinCall "127.0.0.1:7782/node?apikey=ADMIN" "PUT" "127.0.0.1:7783"
       ∉ (mesh.node_handler EnsureAdministrator Nodes join_request).2).
Proof.
  assert (Ha : EnsureAdministrator join_request = Some "ADMIN") by reflexivity.
  assert (Hb : Body join_request ≠ "") by discriminate.
  destruct (mesh_facts.join_propagation EnsureAdministrator Nodes join_request
              "ADMIN" Ha eq_refl Hb eq_refl) as [_ Hcalls].
  split; [reflexivity|]. split.
  - apply (Hcalls "127.0.0.1:7781"). exists "127.0.0.1:7781".
    split; [reflexivity|discriminate].
  - intros Hin. apply (Hcalls "127.0.0.1:7782") in Hin.
    destruct Hin as (status & Hlook & Hne).
    vm_compute in Hlook. injection Hlook as <-. apply Hne. reflexivity.
Defined.

Lemma evicted_node_is_gone_witness :
  status_of (mesh.Proxy (E:=E) SiteUrl proxy_reply Nodes Index routed_request).1
    = None
  ∧ status_of (mesh.Proxy (E:=E) SiteUrl proxy_reply
                 (mesh.node_handler EnsureAdministrator Nodes delete_active).1
                 Index routed_request).1 = Some StatusGone.
Proof.
  split; [reflexivity|].
  assert (Hb : Body delete_active ≠ "") by discriminate.
  assert (Hk : go_index Nodes (Body delete_active) ≠ "") by discriminate.
  assert (Hkey : "KEYA" ≠ "") by discriminate.
  apply (mesh_facts.evicted_node_is_gone (E:=E) SiteUrl EnsureAdministrator
           proxy_reply Nodes Index delete_active routed_request "ADMIN" "KEYA"
           eq_refl eq_refl eq_refl Hb Hk eq_refl Hkey eq_refl).
Defined.


Lemma with_scheme_of_site_witness :
  strings.HasPrefix SiteUrl "http://" = true
  ∧ strings.HasPrefix (mesh.with_scheme SiteUrl "https://node") "http://" = true.
Proof.
  split; [reflexivity|].
  apply (mesh_facts.with_scheme_of_site SiteUrl "https://node" "http://");
    [left; reflexivity|reflexivity].
Defined.

Lemma UpdateIndex_no_sentence_witness :
  mesh.UpdateIndex (E:=E) MeshPattern Index ["garbage"; ""] = ∅.
Proof.
  apply (mesh_facts.UpdateIndex_no_sentence (E:=E)).
  intros line Hin. rewrite !elem_of_cons, elem_of_nil in Hin.
  destruct Hin as [->|[->|[]]]; reflexivity.
Defined.

Lemma Proxy_never_calls_the_site_witness :
  mesh.with_scheme SiteUrl "127.0.0.1:7777" = SiteUrl
  ∧ forwards (mesh.Proxy (E:=E) SiteUrl proxy_reply Nodes local_index local_request).1
    = []
  ∧ status_of (mesh.Proxy (E:=E) SiteUrl proxy_reply Nodes local_index local_request).1
    = Some StatusNotFound.
Proof.
  split; [reflexivity|].
  destruct (mesh_facts.Proxy_never_calls_the_site (E:=E) SiteUrl proxy_reply
              Nodes local_index local_request eq_refl) as (H1 & _ & H3).
  split; [exact H1|]. apply H3. reflexivity.
Defined.

(** *** Further examples: sessions and workers *)

Lemma coin_opens_run_witness :
  ValidatedCoinContent coin_put ≠ ""
  ∧ body_of (workers.answers
               (workers.coin_handler (E:=E) ValidatedCoinContent Http11Port
                  ValidPeriod "tomorrow" BurstSession coin_put).2) = "C9"
  ∧ status_of (burst.run_handler MaxBurstRuntime
                 (workers.coin_handler (E:=E) ValidatedCoinContent Http11Port
                    ValidPeriod "tomorrow" BurstSession coin_put).1
                 coin_run nobody).1 = None
  ∧ status_of (burst.run_handler MaxBurstRuntime BurstSession coin_run nobody).1
    = Some StatusPaymentRequired.
Proof.
  assert (Hc : ValidatedCoinContent coin_put ≠ "") by discriminate.
  destruct (workers_facts.coin_opens_run (E:=E) MaxBurstRuntime
              ValidatedCoinContent Http11Port ValidPeriod "tomorrow"
              BurstSession coin_put eq_refl Hc) as (H1 & _ & _ & H4).
  split; [exact Hc|]. split; [exact H1|].
  split; [apply (H4 coin_run nobody); reflexivity|reflexivity].
Defined.

Lemma coin_handler_keeps_sessions_witness :
  "C1" ≠ ValidatedCoinContent coin_put
  ∧ (workers.coin_handler (E:=E) ValidatedCoinContent Http11Port ValidPeriod
       "tomorrow" BurstSession coin_put).1 !! "C1"
    = BurstSession !! "C1".
Proof.
  assert (Hne : "C1" ≠ ValidatedCoinContent coin_put) by discriminate.
  split; [exact Hne|].
  apply (proj1 (workers_facts.coin_handler_keeps_sessions (E:=E)
                  ValidatedCoinContent Http11Port ValidPeriod "tomorrow"
                  BurstSession coin_put "C1")), Hne.
Defined.



Lemma worker_key_generated :
  worker_key = drawing.GenerateUniqueKey poor_entropy.
Proof. vm_compute. reflexivity. Qed.

Lemma worker_lifecycle_witness :
  worker_key ≠ ActivationKey
  ∧ ∃ d1 d3 d4 acts3 delivered w,
      workers.idle_handler (E:=E) MaxBurstRuntime ActivationKey DecimalString
        poor_entropy 0%Z fresh_dispatcher register_request nobody_takes
      = Some (d1, map workers.Reply (burst.copy_out worker_key)
                  ++ [workers.Go (workers.Warm worker_key)], 0%Z)
      ∧ workers.idle_handler (E:=E) MaxBurstRuntime ActivationKey DecimalString
          poor_entropy 2%Z (workers.warm DecimalString worker_key 1%Z d1)
          poll_request prompt_caller
        = Some (d3, acts3, 0%Z)
      ∧ body_of (workers.replies acts3) = "task"
      ∧ workers.idle_handler (E:=E) MaxBurstRuntime ActivationKey DecimalString
          poor_entropy 3%Z d3 post_request nobody_takes
        = Some (d4, [workers.PostResult 1%nat "result" delivered], w)
      ∧ workers.ContainerRunning d4 !! worker_key = None
      ∧ workers.ContainerResults d4 !! worker_key = None.
Proof.
  assert (Hfresh : worker_key ≠ ActivationKey) by discriminate.
  assert (Hready : Scanf1 (Englang:=E)
                     (workers.ready_sentence DecimalString worker_key 1%Z)
                     workers.ready_pattern
                   = Some [worker_key; "0"])
    by (vm_compute; reflexivity).
  assert (Hin : (0 <= 0 < MaxBurstRuntime)%Z)
    by (split; [discriminate|reflexivity]).
  assert (Hpoll : Query_Get poll_request "apikey" = worker_key) by reflexivity.
  assert (Hpost : Query_Get post_request "apikey" = worker_key) by reflexivity.
  split; [exact Hfresh|].
  destruct (workers_facts.worker_lifecycle (E:=E) MaxBurstRuntime ActivationKey
              DecimalString poor_entropy poor_entropy poor_entropy
              0%Z 1%Z 2%Z 3%Z fresh_dispatcher
              register_request poll_request post_request
              nobody_takes prompt_caller nobody_takes
              worker_key "task" 0%Z 1%nat [worker_key; "0"]
              worker_key_generated Hfresh (conj eq_refl eq_refl) (conj eq_refl Hpoll)
              (conj eq_refl Hpost) Hready eq_refl Hin eq_refl)
    as (d1 & d3 & d4 & acts3 & delivered & w
        & H1 & _ & H3 & H4 & _ & _ & H7 & H8 & H9).
  exists d1, d3, d4, acts3, delivered, w.
  repeat split; assumption.
Defined.

(** *** Further examples: the handler of /run *)

Lemma run_handler_bounded_witness :
  (0 < MaxBurstRuntime < 2 ^ 62)%Z
  ∧ (0 <= (burst.run_handler MaxBurstRuntime BurstSession paid_request
             prompt_worker).2 <= 4 * MaxBurstRuntime)%Z.
Proof.
  assert (Hb : (0 < MaxBurstRuntime < 2 ^ 62)%Z) by (split; reflexivity).
  split; [exact Hb|].
  apply (burst_facts.run_handler_bounded MaxBurstRuntime BurstSession
           paid_request prompt_worker _ paid_request_session Hb).
Defined.

Lemma run_delivers_result_witness :
  burst.posts_output prompt_worker = Some (0%Z, "result")
  ∧ body_of (burst.run_handler MaxBurstRuntime BurstSession paid_request
               prompt_worker).1 = "result".
Proof.
  assert (Hb : (0 < MaxBurstRuntime < 2 ^ 62)%Z) by (split; reflexivity).
  assert (H1 : (0 <= 0 < MaxBurstRuntime)%Z) by (split; [discriminate|reflexivity]).
  assert (H3 : (0 <= 0 < 2 * MaxBurstRuntime)%Z)
    by (split; [discriminate|reflexivity]).
  split; [reflexivity|].
  apply (burst_facts.run_delivers_result MaxBurstRuntime BurstSession
           paid_request prompt_worker _ "result" 0%Z 0%Z
           paid_request_session Hb eq_refl H1 eq_refl H3).
Defined.

(** *** Further examples: the UDP channel *)

Lemma acceptMessage_one_per_datagram_witness :
  burst.handled
    (burst.acceptMessage (E:=E) echo "" (map (λ m, (m, true)) two_messages)).1
  = two_messages.
Proof.
  apply (burst_facts.acceptMessage_one_per_datagram (E:=E) echo two_messages).
  intros m Hm. unfold two_messages in Hm.
  rewrite !elem_of_cons, elem_of_nil in Hm.
  destruct Hm as [->|[->|[]]]; (split; [vm_compute; repeat constructor|reflexivity]).
Defined.

Lemma stray_byte_is_stuck (rest : string) :
  burst.IsMessageComplete (E:=E) ("x" +:+ rest) = false.
Proof. reflexivity. Qed.

Lemma acceptMessage_never_recovers_witness :
  burst.handled
    (burst.acceptMessage (E:=E) echo "x" (map (λ m, (m, true)) two_messages)).1
  = [].
Proof.
  apply (burst_facts.acceptMessage_never_recovers (E:=E) echo "x" _
           stray_byte_is_stuck).
Defined.

Lemma acceptMessage_stops_on_failed_reply_witness :
  burst.handled
    (burst.acceptMessage (E:=E) echo ""
       (("Message has started.aMessage has finished.", false)
          :: map (λ m, (m, true)) two_messages)).1
  = ["Message has started.aMessage has finished."].
Proof.
  assert (Hr : echo ("" +:+ strings.take 1024 "Message has started.aMessage has finished.")
               ≠ "") by discriminate.
  apply (burst_facts.acceptMessage_stops_on_failed_reply (E:=E) echo ""
           "Message has started.aMessage has finished." _ eq_refl Hr).
Defined.

Lemma SendMessage_reply_is_complete_witness :
  workers.SendMessage (E:=E) true true true reply_reads
    = workers.Replied "Message has started.xMessage has finished."
  ∧ burst.IsMessageComplete (E:=E) "Message has started.xMessage has finished."
    = true.
Proof.
  split; [reflexivity|].
  apply (workers_facts.SendMessage_reply_is_complete (E:=E) true true true
           reply_reads _ eq_refl).
Defined.

(** *** Further examples: the container table *)

Lemma StartBurst_not_twice_witness :
  burst.StartBurst (E:=E) [("K", idle_sentence)] "task" idle_table
    = ("K", <["K" := burst.running_record (E:=E) "K" "task"]> idle_table)
  ∧ (burst.StartBurst (E:=E)
       (map_to_list (<["K" := burst.running_record (E:=E) "K" "task"]> idle_table))
       "next" (<["K" := burst.running_record (E:=E) "K" "task"]> idle_table)).1
    ≠ "K".
Proof.
  assert (Hk : "K" ≠ "") by discriminate.
  split; [reflexivity|].
  apply (burst_facts.StartBurst_not_twice (E:=E) [("K", idle_sentence)] _
           "task" "next" "K" idle_table _ eq_refl Hk eq_refl).
  unfold burst.range_of. reflexivity.
Defined.

Lemma GetBurst_resets_named_slot_witness :
  (burst.GetBurst (E:=E) "K1" crossed_table).1 = "R"
  ∧ (burst.GetBurst (E:=E) "K1" (burst.GetBurst (E:=E) "K1" crossed_table).2).1
    = "R".
Proof.
  assert (Hne : "K2" ≠ "K1") by discriminate.
  destruct (burst_facts.GetBurst_resets_named_slot (E:=E) crossed_table
              "K1" _ "K2" "R" eq_refl eq_refl Hne) as (H1 & _ & H3).
  split; [rewrite H1; reflexivity|exact H3].
Defined.

Lemma lambda_returns_late_result_witness :
  body_of (burst.lambda_handler (E:=E) [("K", idle_sentence)]
             (workers.finishes_at 3 "K" finished_sentence)
             idle_table lambda_request).1 = "R"
  ∧ body_of (burst.lambda_handler (E:=E) [("K", idle_sentence)]
               (workers.finishes_at 20 "K" finished_sentence)
               idle_table lambda_request).1 = "".
Proof.
  assert (Hk : "K" ≠ "") by discriminate.
  assert (Hr : "R" ≠ "") by discriminate.
  split.
  - apply (proj1 (workers_facts.lambda_returns_late_result (E:=E)
                    [("K", idle_sentence)] idle_table _ lambda_request
                    "K" finished_sentence "R" 3 eq_refl Hk eq_refl eq_refl Hr)).
    lia.
  - apply (proj2 (workers_facts.lambda_returns_late_result (E:=E)
                    [("K", idle_sentence)] idle_table _ lambda_request
                    "K" finished_sentence "R" 20 eq_refl Hk eq_refl eq_refl Hr)).
    lia.
Defined.

(** *** Further examples: activation *)

Lemma activate_needs_the_key_witness :
  Query_Get bad_activate_request "activationkey" ≠ ActivationKey
  ∧ ∃ t, activation.activate_handler ActivationKey SiteUrl Index
           bad_activate_request (Some "ADMIN") = Some (Index, t)
         ∧ status_of (activation.responses t) = Some StatusUnauthorized.
Proof.
  assert (Hw : Query_Get bad_activate_request "activationkey" ≠ ActivationKey)
    by discriminate.
  assert (Hs : ActivationKey ≠ "") by discriminate.
  split; [exact Hw|].
  destruct (activation_facts.activate_needs_the_key ActivationKey SiteUrl Index
              bad_activate_request (Some "ADMIN") (or_intror Hw))
    as (t & Hrun & _ & _ & Hstatus).
  exists t. split; [exact Hrun|exact (Hstatus Hs)].
Defined.

Lemma activate_with_the_key_witness :
  Query_Get activate_request "activationkey" = ActivationKey
  ∧ ∃ t, activation.activate_handler ActivationKey SiteUrl Index
           activate_request (Some "ADMIN")
         = Some (<[ActivationKey := "CANDIDATE"]> Index, t)
         ∧ body_of (activation.responses t)
           = "http://127.0.0.1:7777/management.html?apikey=ADMIN".
Proof.
  assert (Hs : ActivationKey ≠ "") by discriminate.
  split; [reflexivity|].
  destruct (activation_facts.activate_with_the_key ActivationKey SiteUrl Index
              activate_request "ADMIN" Hs eq_refl)
    as (t & Hrun & _ & Hbody & _).
  exists t. split; [exact Hrun|exact Hbody].
Defined.

End site_facts.
